(** * Movie bot (src/bot.py): a shallow embedding of the pieces the
    specification talks about.

    Python [str] values are modelled as Rocq [string]s whose characters
    are the UTF-8 bytes of the Python string.  Transport (Telegram) and
    storage (PostgreSQL) effects are modelled by an explicit environment
    and an explicit world state that the handlers thread through. *)

From Stdlib Require Import String Ascii List ZArith Bool Arith Lia.
From stdpp Require Import base gmap strings list sorting.


(* ------------------------------------------------------------------ *)
(** ** urllib.parse.quote / unquote *)

Module Url.

(** [_ALWAYS_SAFE] of urllib.parse: ASCII letters, digits and [_.-~]. *)
Definition always_safe (c : ascii) : bool :=
  let n := nat_of_ascii c in
  ((65 <=? n) && (n <=? 90)) || ((97 <=? n) && (n <=? 122))
  || ((48 <=? n) && (n <=? 57))
  || (n =? 95) || (n =? 46) || (n =? 45) || (n =? 126).

(** [quote(string, safe='/')]: the safe set is [_ALWAYS_SAFE] plus ['/']. *)
Definition quote_safe (c : ascii) : bool :=
  always_safe c || (nat_of_ascii c =? 47).

(** Upper-case hex digit, as produced by ['%{:02X}'.format(b)]. *)
Definition hexdig (n : nat) : ascii :=
  ascii_of_nat (if n <? 10 then 48 + n else 55 + n).

(** [_Quoter.__missing__]: a safe byte is kept, any other byte [b]
    becomes ['%{:02X}'.format(b)]. *)
Definition quote_char (c : ascii) : string :=
  if quote_safe c then String c EmptyString
  else String "%"%char (String (hexdig (nat_of_ascii c / 16))
                     (String (hexdig (nat_of_ascii c mod 16)) EmptyString)).

(** [quote(s)] = [quote_from_bytes(s.encode('utf-8'), '/')]: byte by byte
    (the fast path that returns an all-safe input unchanged gives the same
    result). *)
Fixpoint quote (s : string) : string :=
  match s with
  | EmptyString => EmptyString
  | String c s' => String.append (quote_char c) (quote s')
  end.

(** Value of one hex digit (keys of [_hextobyte]: [0-9A-Fa-f]). *)
Definition hexval (c : ascii) : option nat :=
  let n := nat_of_ascii c in
  if (48 <=? n) && (n <=? 57) then Some (n - 48)
  else if (65 <=? n) && (n <=? 70) then Some (n - 55)
  else if (97 <=? n) && (n <=? 102) then Some (n - 87)
  else None.

(** [unquote_to_bytes]: every ['%'] followed by two hex digits is replaced
    by that byte; a ['%'] not followed by two hex digits is kept as it is
    (the [KeyError] branch of [_hextobyte]).  [unquote] then decodes the
    bytes as UTF-8 with [errors='replace'], which is the identity on the
    UTF-8 encoding of a Python string; replacement of invalid sequences is
    not modelled. *)
Fixpoint unquote (s : string) : string :=
  match s with
  | EmptyString => EmptyString
  | String c t =>
      if Ascii.eqb c "%"%char then
        match t with
        | String a (String b r) =>
            match hexval a, hexval b with
            | Some x, Some y => String (ascii_of_nat (16 * x + y)) (unquote r)
            | _, _ => String c (unquote t)
            end
        | _ => String c (unquote t)
        end
      else String c (unquote t)
  end.

(** Characters [quote] may produce. *)
Definition url_char (c : ascii) : bool :=
  let n := nat_of_ascii c in
  quote_safe c || Ascii.eqb c "%"%char || ((48 <=? n) && (n <=? 57))
  || ((65 <=? n) && (n <=? 70)).

End Url.

(* ------------------------------------------------------------------ *)
(** ** Python [str] helpers *)

Module Py.

(** [str.isspace] on the ASCII range: [\t \n \v \f \r], [\x1c-\x1f] and
    space (non-ASCII whitespace is not modelled). *)
Definition is_space (c : ascii) : bool :=
  let n := nat_of_ascii c in
  ((9 <=? n) && (n <=? 13)) || ((28 <=? n) && (n <=? 32)).

Fixpoint lstrip (s : string) : string :=
  match s with
  | EmptyString => EmptyString
  | String c s' => if is_space c then lstrip s' else s
  end.

Definition rev_str (s : string) : string :=
  string_of_list_ascii (List.rev (list_ascii_of_string s)).

Definition rstrip (s : string) : string := rev_str (lstrip (rev_str s)).

(** [str.strip()]. *)
Definition strip (s : string) : string := rstrip (lstrip s).

(** [str.lstrip("@")]. *)
Fixpoint lstrip_at (s : string) : string :=
  match s with
  | EmptyString => EmptyString
  | String c s' => if Ascii.eqb c "@"%char then lstrip_at s' else s
  end.

(** Splits off the first whitespace-free token. *)
Fixpoint break_ws (s : string) : string * string :=
  match s with
  | EmptyString => (EmptyString, EmptyString)
  | String c s' =>
      if is_space c then (EmptyString, s)
      else let '(tok, rest) := break_ws s' in (String c tok, rest)
  end.

(** [str.split(maxsplit=1)]: leading whitespace is dropped, the first
    token is split off, the whitespace after it is dropped and the
    remainder (trailing whitespace included) is the second part. *)
Definition split_max1 (s : string) : list string :=
  match lstrip s with
  | EmptyString => []
  | s1 =>
      let '(tok, rest) := break_ws s1 in
      match lstrip rest with
      | EmptyString => [tok]
      | r => [tok; r]
      end
  end.

(** [ch in s] for a single character. *)
Fixpoint has_char (c : ascii) (s : string) : bool :=
  match s with
  | EmptyString => false
  | String d s' => Ascii.eqb c d || has_char c s'
  end.

End Py.

(* ------------------------------------------------------------------ *)
(** ** Content Store: the [movies] table *)

Module Store.

(** One row of [movies (code, file_id, cover_id)], primary key
    [(code, file_id)]. *)
Record row := mkRow { code : string; file_id : string; cover_id : string }.

Definition table := list row.

Definition same_key (r1 r2 : row) : bool :=
  String.eqb (code r1) (code r2) && String.eqb (file_id r1) (file_id r2).

(** Primary-key constraint of the table. *)
Definition pk_ok (t : table) : Prop :=
  NoDup (map (fun r => (code r, file_id r)) t).

(** [INSERT ... ON CONFLICT (code, file_id) DO NOTHING] versus a plain
    [INSERT], which raises a unique violation on a duplicate key. *)
Inductive on_conflict := DoNothing | NoClause.

Definition sql_insert (act : on_conflict) (t : table) (r : row) : option table :=
  if existsb (same_key r) t then
    match act with DoNothing => Some t | NoClause => None end
  else Some (t ++ [r]).

(** [db_add_movie]: [None] is a raised exception; [up] says whether the
    connection and the statement reach the server. *)
Definition db_add_movie (up : bool) (t : table) (c f cv : string) : option table :=
  if up then sql_insert DoNothing t (mkRow c f cv) else None.

(** [ORDER BY file_id ASC], with byte-wise ("C" collation) comparison. *)
Definition file_le (a b : string * string) : Prop := String.leb a.1 b.1 = true.

#[global] Instance file_le_dec : RelDecision file_le.
Proof. intros a b. unfold file_le. apply _. Defined.

(** [db_get_movies]: [SELECT file_id, cover_id FROM movies WHERE code = %s
    ORDER BY file_id ASC]. *)
Definition db_get_movies (up : bool) (t : table) (c : string)
    : option (list (string * string)) :=
  if up then
    Some (merge_sort file_le
            (map (fun r => (file_id r, cover_id r))
                 (List.filter (fun r => String.eqb (code r) c) t)))
  else None.

(** Primary key of a row. *)
Definition key (r : row) : string * string := (code r, file_id r).

(** The selected columns [(file_id, cover_id)]. *)
Definition pr (r : row) : string * string := (file_id r, cover_id r).

#[global] Instance file_le_total : Total file_le.
Proof. intros a b. unfold file_le. apply String.leb_total. Qed.

#[global] Instance file_le_trans : Transitive file_le.
Proof.
  intros a b c. unfold file_le. intros H1 H2.
  assert (Hle : stdpp.strings.String.le a.1 c.1).
  { transitivity b.1; unfold stdpp.strings.String.le; by apply Is_true_true. }
  by apply Is_true_true.
Qed.

End Store.

(* ------------------------------------------------------------------ *)
(** ** Messages, transport environment and handler results *)

Module Bot.
Import Store.

(** The message being replied to: [video.file_id] and
    [document.file_id] when present. *)
Record replied := mkReplied { r_video : option string; r_document : option string }.

(** The fields of a Pyrogram [Message] the handlers read.  [m_cmd] is
    [message.command] (the parsed command when the text or caption is a
    command, else [None]). *)
Record message := mkMessage {
  m_from : option Z;            (* message.from_user.id *)
  m_chat : string;              (* message.chat *)
  m_text : option string;       (* message.text *)
  m_cmd : option (list string); (* message.command *)
  m_reply : option replied;     (* message.reply_to_message *)
  m_photo : option string       (* message.photo.file_id *)
}.

(** An entry of [_pending_adds]: [{"code", "file_id", "timestamp"}]. *)
Record pending := mkPending { p_code : string; p_file_id : string; p_timestamp : Z }.

(** Process state: the pending-upload map and the database table. *)
Record world := mkWorld { w_pending : gmap Z pending; w_db : table }.

(** What the transport and the database answer during one handler
    invocation.  [None] is a raised exception. *)
Record env := mkEnv {
  e_db_up : bool;                       (* database reachable *)
  e_me : option string;                 (* (await bot.get_me()).username *)
  e_member : string -> Z -> option string; (* get_chat_member(ch, u).status *)
  e_now : Z                             (* time.time() *)
}.

Inductive button := UrlButton (label url : string).

(** Observable effects of a handler, in order. *)
Inductive effect :=
  | ReplyText (text : string)
  | ReplyPhoto (photo caption : string) (markup : list (list button))
  | ReplyVideo (video caption : string)
  | GetChatMember (ch : string) (user : Z)
  | DeleteLater (delay : Z)
  | Log (msg : string).

(** Result of one handler invocation: the new state, the effects, and
    whether an exception escaped the handler. *)
Record hres := mkRes { h_world : world; h_out : list effect; h_raised : bool }.

Definition done (w : world) (out : list effect) : hres := mkRes w out false.
Definition raise (w : world) (out : list effect) : hres := mkRes w out true.

(** [video.file_id if video else document.file_id]. *)
Definition replied_file_id (r : replied) : option string :=
  match r_video r with Some f => Some f | None => r_document r end.

Definition is_command (name : string) (m : message) : bool :=
  match m_cmd m with Some (c :: _) => String.eqb c name | _ => false end.

Section Handlers.

(** Module-level configuration of bot.py, and the [fancy] font mapping
    as a partial function: [None] is an exception raised inside [fancy]
    (the [fancy] of bot.py raises on every input, see [Fancy.fancy]). *)
Variable ADMIN_ID : Z.
Variable SOURCE_CHANNEL : string.
Variable CHANNELS : list string.
Variable DELETE_AFTER_SECONDS : Z.
Variable fancy : string -> option string.

Definition share_link (username code : string) : string :=
  "https://t.me/" ++ username ++ "?start=" ++ Url.quote code.

(** [message.reply_text(fancy(s))] after the effects [out]: the argument
    is evaluated first, so an exception in [fancy] escapes the handler
    before anything is sent. *)
Definition reply_fancy (w : world) (out : list effect) (s : string) : hres :=
  match fancy s with
  | None => raise w out
  | Some t => done w (out ++ [ReplyText t])
  end.

(** [cmd_addmovie]. *)
Definition cmd_addmovie (e : env) (w : world) (m : message) : hres :=
  let usage := reply_fancy w [] "🎬 Reply to a movie file with /addmovie movie_code" in
  match m_reply m with
  | None => usage
  | Some rep =>
      match replied_file_id rep with
      | None => usage
      | Some fid =>
          match m_text m with
          | None => raise w []                    (* None.split *)
          | Some text =>
              match Py.split_max1 text with
              | [] | [_] =>
                  reply_fancy w [] "❌ You must provide a movie code. Example: /addmovie demon_slayer"
              | _ :: arg :: _ =>
                  let c := Py.strip arg in
                  if String.eqb c "" || Py.has_char " "%char c then
                    reply_fancy w [] "❌ Invalid code. Use a single token."
                  else
                    match m_from m with
                    | None => raise w []            (* None.id *)
                    | Some uid =>
                        reply_fancy (mkWorld (<[uid := mkPending c fid (e_now e)]> (w_pending w))
                                             (w_db w))
                                    [] "🖼 Now send the movie cover image (reply with the poster)."
                    end
              end
          end
      end
  end.

(** [receive_cover].  Everything after the pending lookup runs in a
    [try] whose [except Exception] branch logs and then replies with a
    [fancy] text; an exception raised there escapes the handler. *)
Definition receive_cover (e : env) (w : world) (m : message) : hres :=
  match m_from m with
  | None => raise w []
  | Some admin_id =>
      match w_pending w !! admin_id with
      | None => done w []
      | Some p =>
          match m_photo m with
          | None => raise w []
          | Some cover_id =>
              let fail := fun w' => reply_fancy w' [Log "Failed to save movie"]
                                                "❌ Failed to save movie, check logs." in
              match db_add_movie (e_db_up e) (w_db w) (p_code p) (p_file_id p) cover_id with
              | None => fail w
              | Some db' =>
                  let w' := mkWorld (delete admin_id (w_pending w)) db' in
                  match e_me e with
                  | None => fail w'
                  | Some username =>
                      match fancy "✅ Movie saved!" with
                      | None => fail w'
                      | Some saved =>
                          match fancy "🎯 Share link:" with
                          | None => fail w'
                          | Some share =>
                              done w' [ReplyText (saved ++ "
" ++ share ++ "
" ++ share_link username (p_code p))]
                          end
                      end
                  end
              end
          end
      end
  end.

(** [user_in_all_channels]: the result and the effects (membership
    queries and warnings) in order. *)
Fixpoint user_in_all_channels (e : env) (chs : list string) (user_id : Z)
    : bool * list effect :=
  match chs with
  | [] => (true, [])
  | ch :: rest =>
      match e_member e ch user_id with
      | None => (false, [GetChatMember ch user_id; Log "Error checking membership"])
      | Some status =>
          if String.eqb status "member" || String.eqb status "administrator"
             || String.eqb status "creator" then
            let '(b, out) := user_in_all_channels e rest user_id in
            (b, GetChatMember ch user_id :: out)
          else (false, [GetChatMember ch user_id])
      end
  end.

(** The join button of one channel:
    [fancy("📢 Join ") + fancy(ch.strip().lstrip("@"))], left operand
    first; [None] when a [fancy] call raises. *)
Definition join_button (ch : string) : option (list button) :=
  match fancy "📢 Join " with
  | None => None
  | Some l1 =>
      match fancy (Py.lstrip_at (Py.strip ch)) with
      | None => None
      | Some l2 => Some [UrlButton (l1 ++ l2) ("https://t.me/" ++ Py.lstrip_at (Py.strip ch))]
      end
  end.

(** The loop [for ch in CHANNELS: buttons.append(...)]. *)
Fixpoint join_buttons (chs : list string) : option (list (list button)) :=
  match chs with
  | [] => Some []
  | ch :: rest =>
      match join_button ch with
      | None => None
      | Some row =>
          match join_buttons rest with
          | None => None
          | Some rows => Some (row :: rows)
          end
      end
  end.

(** The loop over the rows when the user passed the gate: the effects
    and whether an exception escaped.  Each caption is computed before
    its message is sent. *)
Fixpoint send_all (rows : list (string * string)) : list effect * bool :=
  match rows with
  | [] => ([], false)
  | (fid, cover) :: rest =>
      match fancy "🎬 Your movie is ready!" with
      | None => ([], true)
      | Some cap1 =>
          match fancy "⏳ This file will be deleted in a while." with
          | None => ([ReplyPhoto cover cap1 []], true)
          | Some cap2 =>
              let '(out, raised) := send_all rest in
              ([ReplyPhoto cover cap1 []; ReplyVideo fid cap2;
                DeleteLater DELETE_AFTER_SECONDS; DeleteLater DELETE_AFTER_SECONDS] ++ out,
               raised)
          end
      end
  end.

(** [cmd_start]: [message.command] is [None] or empty only outside the
    [filters.command("start")] dispatch, where [len] or the index raises. *)
Definition cmd_start (e : env) (w : world) (m : message) : hres :=
  match m_cmd m with
  | Some [_] => reply_fancy w [] "🍿 Welcome! Click a Watch link in the channel to get a movie."
  | Some (_ :: arg :: _) =>
      let c := Url.unquote (Py.strip arg) in
      match db_get_movies (e_db_up e) (w_db w) c with
      | None => reply_fancy w [Log "DB error fetching movie"] "❌ Internal error fetching movie."
      | Some [] => reply_fancy w [] "❌ Movie not found."
      | Some rows =>
          match m_from m with
          | None => raise w []
          | Some uid =>
              let '(ok, checks) := user_in_all_channels e CHANNELS uid in
              if ok then
                let '(out, raised) := send_all rows in
                mkRes w (checks ++ out) raised
              else
                match join_buttons CHANNELS with
                | None => raise w checks
                | Some buttons =>
                    match e_me e with
                    | None => raise w checks
                    | Some username =>
                        match fancy "✅ I Joined - Get Movie" with
                        | None => raise w checks
                        | Some retry =>
                            match fancy "🔒 Join all channels to unlock this movie." with
                            | None => raise w checks
                            | Some caption =>
                                let first_cover := match rows with (_, cv) :: _ => cv | [] => "" end in
                                done w (checks ++ [ReplyPhoto first_cover caption
                                                     (buttons ++ [[UrlButton retry
                                                                     (share_link username c)]])])
                            end
                        end
                    end
                end
          end
      end
  | _ => raise w []
  end.

(** Pyrogram runs the first handler of group 0 whose filter matches, in
    registration order; an exception in a handler is logged by Pyrogram
    and the bot goes on with the next update. *)
Definition dispatch (e : env) (w : world) (m : message) : hres :=
  if is_command "addmovie" m
     && (bool_decide (m_from m = Some ADMIN_ID) || String.eqb (m_chat m) SOURCE_CHANNEL)
  then cmd_addmovie e w m
  else if bool_decide (m_photo m <> None) && bool_decide (m_from m = Some ADMIN_ID)
  then receive_cover e w m
  else if is_command "start" m then cmd_start e w m
  else done w [].

End Handlers.

(** Channels whose membership was queried, in order. *)
Fixpoint queried (out : list effect) : list string :=
  match out with
  | [] => []
  | GetChatMember ch _ :: rest => ch :: queried rest
  | _ :: rest => queried rest
  end.

(** The statuses counted as "in". *)
Definition member_ok (st : option string) : Prop :=
  match st with Some s => s ∈ ["member"; "administrator"; "creator"] | None => False end.

#[global] Instance member_ok_dec (st : option string) : Decision (member_ok st).
Proof. destruct st; simpl; apply _. Defined.

Definition is_video (ef : effect) : bool :=
  match ef with ReplyVideo _ _ => true | _ => false end.

Definition code_ok (c : string) : Prop :=
  c ≠ EmptyString ∧ Py.has_char " "%char c = false.

Definition pending_ok (p : pending) : Prop := code_ok (p_code p).

(** Files sent as videos, photos sent, and deletions scheduled, in order. *)
Fixpoint sent_videos (out : list effect) : list string :=
  match out with
  | [] => []
  | ReplyVideo v _ :: rest => v :: sent_videos rest
  | _ :: rest => sent_videos rest
  end.

Fixpoint sent_photos (out : list effect) : list string :=
  match out with
  | [] => []
  | ReplyPhoto ph _ _ :: rest => ph :: sent_photos rest
  | _ :: rest => sent_photos rest
  end.

Fixpoint scheduled_deletions (out : list effect) : list Z :=
  match out with
  | [] => []
  | DeleteLater d :: rest => d :: scheduled_deletions rest
  | _ :: rest => scheduled_deletions rest
  end.

(** A change of the pending map made by [cmd_addmovie]: a valid record
    for the sender, whose content reference is the replied-to video or
    document. *)
Definition add_step (m : message) (old new : gmap Z pending) : Prop :=
  ∃ uid rep p, m_from m = Some uid ∧ m_reply m = Some rep ∧
    replied_file_id rep = Some (p_file_id p) ∧ pending_ok p ∧ new = <[uid := p]> old.

(** The state after Pyrogram has handled a sequence of updates in order;
    a handler that raises keeps the changes it made before raising. *)
Fixpoint run (ADMIN : Z) (SRC : string) (CHS : list string) (DEL : Z)
    (fancy : string -> option string) (w : world) (ms : list (env * message)) : world :=
  match ms with
  | [] => w
  | (e, m) :: rest => run ADMIN SRC CHS DEL fancy (h_world (dispatch ADMIN SRC CHS DEL fancy e w m)) rest
  end.

End Bot.

(* ------------------------------------------------------------------ *)
(** ** Start-up: module-level configuration and [__main__] *)

Module Startup.

(** [str.split(",")]. *)
Fixpoint split_comma_aux (acc : string) (s : string) : list string :=
  match s with
  | EmptyString => [acc]
  | String c s' =>
      if Ascii.eqb c ","%char then acc :: split_comma_aux EmptyString s'
      else split_comma_aux (acc ++ String c EmptyString) s'
  end.

Definition split_comma (s : string) : list string := split_comma_aux EmptyString s.

Definition DEFAULT_CHANNELS : list string :=
  ["@ModMasterUnlocked"; "@AnimeTheaterLeaks"; "@hollywoodleaks711"].

Record config := mkConfig {
  API_ID : Z; API_HASH : string; BOT_TOKEN : string; ADMIN_ID : Z;
  DATABASE_URL : string; SOURCE_CHANNEL : string; CHANNELS : list string;
  DELETE_AFTER_SECONDS : Z; PORT : Z }.

(** Start-up steps, in order. *)
Inductive step :=
  | LogError (msg : string)
  | StartKeepalive (port : Z)
  | DbInitialized
  | BotRun.

(** The exceptions raised while bot.py is imported. *)
Inductive error :=
  | BadLevel (level : string)      (* ValueError of logging.basicConfig *)
  | MissingEnv (name : string)     (* RuntimeError of require_env *)
  | BadInt (v : string).           (* ValueError of int() *)

(** How the process ends up: a fatal exception at import time, or the
    main block having run. *)
Inductive outcome :=
  | Fatal (err : error) (out : list step)
  | Started (out : list step).

Definition bind {A B} (x : error + A) (k : A -> error + B) : error + B :=
  match x with inl e => inl e | inr a => k a end.

Local Notation "x <-- a ;; b" := (bind a (fun x => b))
  (at level 100, a at next level, right associativity).

(** The level names [logging] knows ([logging._nameToLevel]). *)
Definition LEVEL_NAMES : list string :=
  ["CRITICAL"; "FATAL"; "ERROR"; "WARN"; "WARNING"; "INFO"; "DEBUG"; "NOTSET"].

(** [logging.basicConfig(level=...)] with a [str] level: the root logger
    has no handler when bot.py is imported, so the level is set, and
    [logging._checkLevel] raises [ValueError] for a name it does not
    know (names are case-sensitive). *)
Definition basic_config (level : string) : error + unit :=
  if existsb (String.eqb level) LEVEL_NAMES then inr tt else inl (BadLevel level).

Section Config.

(** [os.environ.get] and Python's [int()] on a [str]. *)
Variable environ : string -> option string.
Variable int_of : string -> option Z.

Definition err_missing (name : string) : string :=
  "Missing required environment variable: " ++ name.

(** [require_env]: an unset or empty variable is logged and raises
    [RuntimeError]. *)
Definition require_env (name : string) : error + string :=
  match environ name with
  | Some v => if String.eqb v "" then inl (MissingEnv name) else inr v
  | None => inl (MissingEnv name)
  end.

Definition to_int (v : string) : error + Z :=
  match int_of v with Some n => inr n | None => inl (BadInt v) end.

(** The module-level statements of bot.py, in order, from the logging
    set-up to [PORT]. *)
Definition load_config : error + config :=
  _ <-- basic_config (match environ "LOG_LEVEL" with Some v => v | None => "INFO" end) ;;
  a <-- require_env "API_ID" ;; api_id <-- to_int a ;;
  api_hash <-- require_env "API_HASH" ;;
  bot_token <-- require_env "BOT_TOKEN" ;;
  ad <-- require_env "ADMIN_ID" ;; admin_id <-- to_int ad ;;
  db_url <-- require_env "DATABASE_URL" ;;
  src <-- require_env "SOURCE_CHANNEL" ;;
  let channels :=
    match environ "CHANNELS" with
    | Some v => if String.eqb v "" then DEFAULT_CHANNELS
                else map Py.strip (List.filter (fun c => negb (String.eqb (Py.strip c) ""))
                                                (split_comma v))
    | None => DEFAULT_CHANNELS
    end in
  del <-- (match environ "DELETE_AFTER_SECONDS" with
          | Some v => to_int v | None => inr 1200%Z end) ;;
  port <-- (match environ "PORT" with Some v => to_int v | None => inr 8080%Z end) ;;
  inr (mkConfig api_id api_hash bot_token admin_id db_url src channels del port).

(** What is logged before the exception escapes: only [require_env]
    logs. *)
Definition logged (err : error) : list step :=
  match err with
  | MissingEnv name => [LogError (err_missing name)]
  | BadLevel _ | BadInt _ => []
  end.

(** [__main__]: keep-alive thread, database initialisation inside
    [try/except Exception] that only logs, then [bot.run()].
    [db_init_ok] says whether [db_init] completes without raising. *)
Definition main (db_init_ok : bool) : outcome :=
  match load_config with
  | inl err => Fatal err (logged err)
  | inr cfg =>
      Started ([StartKeepalive (PORT cfg)]
               ++ (if db_init_ok then [DbInitialized]
                   else [LogError "Database initialization failed at startup."])
               ++ [BotRun])
  end.

End Config.

(** Case analysis on every [bind] of the configuration chain. *)
Ltac run_binds :=
  repeat match goal with
  | |- context [bind ?x _] => let E := fresh "E" in destruct x eqn:E; cbn [bind]
  end.

Definition REQUIRED : list string :=
  ["API_ID"; "API_HASH"; "BOT_TOKEN"; "ADMIN_ID"; "DATABASE_URL"; "SOURCE_CHANNEL"].

Definition is_bot_run (s : step) : bool := match s with BotRun => true | _ => false end.

(** Whether [bot.run()] is reached. *)
Definition serves (o : outcome) : bool :=
  match o with Started out => existsb is_bot_run out | Fatal _ _ => false end.

End Startup.

(* ------------------------------------------------------------------ *)
(** ** [fancy]: the font mapping of the replies *)

Module Fancy.

(** A UTF-8 continuation byte [10xxxxxx]. *)
Definition is_cont (c : ascii) : bool :=
  let n := nat_of_ascii c in (128 <=? n) && (n <=? 191).

(** [len(s)]: the number of code points of the UTF-8 encoded string. *)
Fixpoint py_len (s : string) : nat :=
  match s with
  | EmptyString => 0
  | String c s' => (if is_cont c then 0 else 1) + py_len s'
  end.

(** The code points of a string, each as its UTF-8 encoding. *)
Fixpoint code_points_aux (cur : string) (s : string) : list string :=
  match s with
  | EmptyString => match cur with EmptyString => [] | _ => [cur] end
  | String c s' =>
      if is_cont c then code_points_aux (cur ++ String c EmptyString) s'
      else match cur with EmptyString => [] | _ => [cur] end
           ++ code_points_aux (String c EmptyString) s'
  end.

Definition code_points (s : string) : list string := code_points_aux EmptyString s.

Definition normal : string :=
  "abcdefghijklmnopqrstuvwxyzABCDEFGHIJKLMNOPQRSTUVWXYZ0123456789".

(** The literal of bot.py, three adjacent string literals. *)
Definition fancy_bold : string :=
  "ùóÆùóØùó∞ùó±ùó≤ùó≥ùó¥ùóµùó∂ùó∑ùó∏ùóπùó∫ùóªùóºùóΩùóæùóøùòÄùòÅùò∂ùòÉùòÑùòÖùòÜùòá"
  ++ "ùóîùóïùóñùóóùóòùóôùóöùóõùóúùóùùóûùóüùó†ùó°ùó¢ùó£ùó§ùó•ùó¶ùóßùó®ùó©ùó™ùó´ùó¨ùó≠"
  ++ "ùü¨ùü≠ùüÆùüØùü∞ùü±ùü≤ùüïùü¥ùüµ".

(** [str.maketrans(x, y)]: [ValueError] ([None]) unless [len(x) == len(y)];
    otherwise the i-th code point of [x] maps to the i-th of [y]. *)
Definition maketrans (x y : string) : option (list (string * string)) :=
  if Nat.eqb (py_len x) (py_len y) then Some (zip (code_points x) (code_points y))
  else None.

Fixpoint assoc (k : string) (tbl : list (string * string)) : option string :=
  match tbl with
  | [] => None
  | (a, b) :: rest => if String.eqb a k then Some b else assoc k rest
  end.

(** [str.translate(table)]: code points found in the table are replaced,
    the others are kept. *)
Definition translate (tbl : list (string * string)) (text : string) : string :=
  String.concat "" (map (λ cp, match assoc cp tbl with Some r => r | None => cp end)
                        (code_points text)).

(** [fancy]: [None] is the [ValueError] raised by [str.maketrans]. *)
Definition fancy (text : string) : option string :=
  match maketrans normal fancy_bold with
  | None => None
  | Some tbl => Some (translate tbl text)
  end.

End Fancy.

(* ------------------------------------------------------------------ *)
(** ** Concrete inputs used by the examples *)

Module Samples.
Import Store Bot.

Definition ADMIN : Z := 42.
Definition SRC : string := "@source".
Definition CHS : list string := ["@A"; "@B"].

Definition env_ok : env := mkEnv true (Some "moviebot") (λ _ _, Some "member") 1000.
Definition env_stranger : env := mkEnv true (Some "moviebot") (λ _ _, Some "left") 1000.

Definition w0 : world := mkWorld ∅ [].
Definition pend_demo : pending := mkPending "demo" "vid1" 1000.
Definition w_pend : world := mkWorld {[42%Z := pend_demo]} [].
Definition w_demo : world := mkWorld ∅ [mkRow "demo" "vid1" "cover1"].

Definition msg_add : message :=
  mkMessage (Some 42%Z) "dm" (Some "/addmovie demo") (Some ["addmovie"; "demo"])
            (Some (mkReplied (Some "vid1") None)) None.
Definition msg_cover : message :=
  mkMessage (Some 42%Z) "dm" None None None (Some "cover1").
Definition msg_start_demo : message :=
  mkMessage (Some 7%Z) "dm" (Some "/start demo") (Some ["start"; "demo"]) None None.

End Samples.

(* ------------------------------------------------------------------ *)
(** ** Theorems *)

Module FancyFacts.

Lemma fancy_none (text : string) : Fancy.fancy text = None.
Proof.
  unfold Fancy.fancy, Fancy.maketrans.
  replace (Nat.eqb (Fancy.py_len Fancy.normal) (Fancy.py_len Fancy.fancy_bold)) with false
    by (vm_compute; reflexivity).
  reflexivity.
Qed.

Lemma reply_fancy_none (w : Bot.world) (out : list Bot.effect) (s : string) :
  Bot.reply_fancy Fancy.fancy w out s = Bot.mkRes w out true.
Proof. unfold Bot.reply_fancy. by rewrite fancy_none. Qed.

Lemma reply_fancy_world (fancy : string → option string) (w : Bot.world)
    (out : list Bot.effect) (s : string) :
  Bot.h_world (Bot.reply_fancy fancy w out s) = w.
Proof. unfold Bot.reply_fancy. by destruct (fancy s). Qed.

End FancyFacts.

Module UrlFacts.
Import Url.

Lemma unquote_quote_char (c : ascii) (rest : string) :
  unquote (String.append (quote_char c) rest) = String c (unquote rest).
Proof.
  destruct c as [[] [] [] [] [] [] [] []]; reflexivity.
Qed.

Lemma unquote_quote (s : string) : unquote (quote s) = s.
Proof.
  induction s as [|c s IH]; [reflexivity|].
  simpl. rewrite unquote_quote_char, IH. reflexivity.
Qed.

End UrlFacts.

(** C7: for every code, decoding the deep-link start argument produced by
    [quote(code)] with [unquote] gives back the code. *)
Theorem deep_link_roundtrip (code : string) :
  Url.unquote (Url.quote code) = code.
Proof. apply UrlFacts.unquote_quote. Qed.

Example deep_link_roundtrip_space_amp :
  (Url.quote "a b&c" = "a%20b%26c" /\ Url.unquote "a%20b%26c" = "a b&c")%string.
Proof. split; reflexivity. Qed.

Module BotFacts.
Import Store Bot.

Lemma status_ok_iff (s : string) :
  (String.eqb s "member" || String.eqb s "administrator" || String.eqb s "creator") = true
  ↔ s ∈ ["member"; "administrator"; "creator"].
Proof.
  rewrite !orb_true_iff, !String.eqb_eq, !elem_of_cons, elem_of_nil.
  tauto.
Qed.

Lemma user_in_all_channels_true (e : env) (chs : list string) (uid : Z) :
  (user_in_all_channels e chs uid).1 = true ↔ Forall (λ ch, member_ok (e_member e ch uid)) chs.
Proof.
  induction chs as [|ch chs IH]; simpl.
  - split; auto.
  - rewrite Forall_cons.
    destruct (e_member e ch uid) as [st|] eqn:Hm; cbn [member_ok].
    + destruct (String.eqb st "member" || String.eqb st "administrator"
                || String.eqb st "creator") eqn:Hs.
      * destruct (user_in_all_channels e chs uid) as [b out] eqn:Hu. simpl in *.
        rewrite IH. apply status_ok_iff in Hs. tauto.
      * simpl. split; [discriminate|].
        intros [Hin _]. apply status_ok_iff in Hin. congruence.
    + simpl. split; [discriminate|]. intros [[] _].
Qed.

Lemma user_in_all_channels_prefix (e : env) (pre post : list string) (ch : string) (uid : Z) :
  Forall (λ c, member_ok (e_member e c uid)) pre →
  ¬ member_ok (e_member e ch uid) →
  (user_in_all_channels e (pre ++ ch :: post) uid).1 = false ∧
  queried (user_in_all_channels e (pre ++ ch :: post) uid).2 = pre ++ [ch].
Proof.
  intros Hpre Hch. induction Hpre as [|c pre Hc _ IH]; simpl.
  - destruct (e_member e ch uid) as [st|] eqn:Hm; simpl; [|auto].
    destruct (String.eqb st "member" || String.eqb st "administrator"
              || String.eqb st "creator") eqn:Hs; simpl; [|auto].
    exfalso. apply Hch. by apply status_ok_iff.
  - unfold member_ok in Hc. destruct (e_member e c uid) as [s|]; [|contradiction].
    apply status_ok_iff in Hc. rewrite Hc.
    destruct (user_in_all_channels e (pre ++ ch :: post) uid) as [b out]. simpl in *.
    destruct IH as [-> ->]. auto.
Qed.

End BotFacts.

Module PendingFacts.
Import Bot.

Lemma cmd_addmovie_pending (fancy : string → option string) (e : env) (w : world) (m : message) :
  w_pending (h_world (cmd_addmovie fancy e w m)) = w_pending w ∨
  add_step m (w_pending w) (w_pending (h_world (cmd_addmovie fancy e w m))).
Proof.
  unfold cmd_addmovie. cbv zeta.
  destruct (m_reply m) as [rep|] eqn:Hr; [|rewrite FancyFacts.reply_fancy_world; auto].
  destruct (replied_file_id rep) as [fid|] eqn:Hfid; [|rewrite FancyFacts.reply_fancy_world; auto].
  destruct (m_text m) as [text|]; [|auto].
  destruct (Py.split_max1 text) as [|tok [|arg more]];
    [rewrite FancyFacts.reply_fancy_world; auto | rewrite FancyFacts.reply_fancy_world; auto |].
  destruct (String.eqb (Py.strip arg) "" || Py.has_char " "%char (Py.strip arg)) eqn:Hc;
    [rewrite FancyFacts.reply_fancy_world; auto|].
  destruct (m_from m) as [uid|] eqn:Hf; [|auto].
  right. rewrite FancyFacts.reply_fancy_world.
  exists uid, rep, (mkPending (Py.strip arg) fid (e_now e)).
  apply orb_false_iff in Hc as [Hc1 Hc2].
  repeat split; auto. by apply String.eqb_neq.
Qed.

(** The state [receive_cover] leaves: unchanged, or the sender's record
    removed and the table replaced by the result of the insert. *)
Lemma receive_cover_world (fancy : string → option string) (e : env) (w : world) (m : message) :
  h_world (receive_cover fancy e w m) = w ∨
  ∃ uid p cover db', m_from m = Some uid ∧ w_pending w !! uid = Some p ∧
    m_photo m = Some cover ∧
    Store.db_add_movie (e_db_up e) (w_db w) (p_code p) (p_file_id p) cover = Some db' ∧
    h_world (receive_cover fancy e w m) = mkWorld (delete uid (w_pending w)) db'.
Proof.
  unfold receive_cover.
  destruct (m_from m) as [uid|]; [|auto].
  destruct (w_pending w !! uid) as [p|] eqn:Hp; [|auto].
  destruct (m_photo m) as [cv|]; [|auto].
  destruct (Store.db_add_movie _ _ _ _ _) as [db'|] eqn:Hdb;
    [|left; apply FancyFacts.reply_fancy_world].
  right. exists uid, p, cv, db'. do 4 (split; [done|]).
  destruct (e_me e); [|apply FancyFacts.reply_fancy_world].
  destruct (fancy _); [|apply FancyFacts.reply_fancy_world].
  destruct (fancy _); [reflexivity|apply FancyFacts.reply_fancy_world].
Qed.

Lemma receive_cover_pending (fancy : string → option string) (e : env) (w : world) (m : message) :
  w_pending (h_world (receive_cover fancy e w m)) = w_pending w ∨
  ∃ uid, w_pending (h_world (receive_cover fancy e w m)) = delete uid (w_pending w).
Proof.
  destruct (receive_cover_world fancy e w m) as [-> | (uid & p & cv & db' & _ & _ & _ & _ & ->)];
    [left; reflexivity | right; eauto].
Qed.

Lemma cmd_start_world (CHS : list string) (DEL : Z) (fancy : string → option string)
    (e : env) (w : world) (m : message) :
  h_world (cmd_start CHS DEL fancy e w m) = w.
Proof.
  unfold cmd_start.
  destruct (m_cmd m) as [[|c [|arg more]]|]; try reflexivity;
    [apply FancyFacts.reply_fancy_world|].
  destruct (Store.db_get_movies _ _ _) as [[|r rows]|];
    try apply FancyFacts.reply_fancy_world.
  destruct (m_from m) as [uid|]; [|reflexivity].
  destruct (user_in_all_channels e CHS uid) as [[] checks].
  - destruct (send_all DEL fancy (r :: rows)). reflexivity.
  - destruct (join_buttons fancy CHS); [|reflexivity].
    destruct (e_me e); [|reflexivity].
    destruct (fancy _); [|reflexivity]. destruct (fancy _); reflexivity.
Qed.

(** A valid add command that Pyrogram routes to [cmd_addmovie]. *)
Lemma dispatch_addmovie_valid (ADMIN : Z) (SRC : string) (CHS : list string) (DEL : Z)
    (e : env) (w : world) (m : message) (uid : Z) (rep : replied) (fid text tok arg : string) :
  is_command "addmovie" m = true → (m_from m = Some ADMIN ∨ m_chat m = SRC) →
  m_reply m = Some rep → replied_file_id rep = Some fid →
  m_text m = Some text → Py.split_max1 text = [tok; arg] →
  code_ok (Py.strip arg) → m_from m = Some uid →
  (∀ fancy, h_world (dispatch ADMIN SRC CHS DEL fancy e w m)
     = mkWorld (<[uid := mkPending (Py.strip arg) fid (e_now e)]> (w_pending w)) (w_db w)) ∧
  dispatch ADMIN SRC CHS DEL Fancy.fancy e w m
  = mkRes (mkWorld (<[uid := mkPending (Py.strip arg) fid (e_now e)]> (w_pending w)) (w_db w))
          [] true.
Proof.
  intros Hc Hauth Hr Hfid Ht Hsp [Hne Hsp'] Hf.
  assert (Hd : ∀ fancy, dispatch ADMIN SRC CHS DEL fancy e w m
     = reply_fancy fancy (mkWorld (<[uid := mkPending (Py.strip arg) fid (e_now e)]> (w_pending w))
                                  (w_db w))
                   [] "🖼 Now send the movie cover image (reply with the poster).").
  { intros fancy. unfold dispatch.
    assert (Ha : (bool_decide (m_from m = Some ADMIN) || String.eqb (m_chat m) SRC) = true).
    { destruct Hauth as [H|H].
      - by rewrite (bool_decide_eq_true_2 _ H).
      - rewrite (proj2 (String.eqb_eq _ _) H). apply orb_true_r. }
    rewrite Hc, Ha. cbn [andb].
    assert (Hcode : (String.eqb (Py.strip arg) "" || Py.has_char " "%char (Py.strip arg)) = false).
    { rewrite Hsp', orb_false_r. by apply String.eqb_neq. }
    unfold cmd_addmovie. rewrite Hr, Hfid, Ht, Hsp. cbn iota beta zeta.
    by rewrite Hcode, Hf. }
  split.
  - intros fancy. rewrite Hd. apply FancyFacts.reply_fancy_world.
  - rewrite Hd. apply FancyFacts.reply_fancy_none.
Qed.

(** A photo of [ADMIN_ID] while a record is pending for them and the
    database is reachable: the record is removed and the insert done,
    whatever happens after the write. *)
Lemma dispatch_cover_saved (ADMIN : Z) (SRC : string) (CHS : list string) (DEL : Z)
    (fancy : string → option string) (e : env) (w : world) (m : message) (cover : string)
    (p : pending) :
  m_cmd m = None → m_from m = Some ADMIN → m_photo m = Some cover → e_db_up e = true →
  w_pending w !! ADMIN = Some p →
  w_pending (h_world (dispatch ADMIN SRC CHS DEL fancy e w m)) = delete ADMIN (w_pending w) ∧
  Some (w_db (h_world (dispatch ADMIN SRC CHS DEL fancy e w m)))
  = Store.sql_insert Store.DoNothing (w_db w) (Store.mkRow (p_code p) (p_file_id p) cover).
Proof.
  intros Hc Hf Hph Hdb Hp. unfold dispatch.
  assert (Hna : is_command "addmovie" m = false) by (unfold is_command; by rewrite Hc).
  rewrite Hna, (bool_decide_eq_true_2 (m_from m = Some ADMIN) Hf).
  rewrite (bool_decide_eq_true_2 (m_photo m ≠ None)) by (rewrite Hph; discriminate).
  cbn [andb]. unfold receive_cover, Store.db_add_movie. cbv zeta.
  rewrite Hf, Hp, Hph, Hdb. unfold Store.sql_insert.
  destruct (existsb _ _);
    (destruct (e_me e); [destruct (fancy _); [destruct (fancy _)|]|]);
    rewrite ?FancyFacts.reply_fancy_world; cbn; split; reflexivity.
Qed.

(** No update removes the record of a user other than [ADMIN_ID]. *)
Lemma dispatch_keeps_other (ADMIN : Z) (SRC : string) (CHS : list string) (DEL : Z)
    (fancy : string → option string) (e : env) (w : world) (m : message) (uid : Z) :
  uid ≠ ADMIN → is_Some (w_pending w !! uid) →
  is_Some (w_pending (h_world (dispatch ADMIN SRC CHS DEL fancy e w m)) !! uid).
Proof.
  intros Hne Hs. unfold dispatch.
  destruct (_ && (_ || _)).
  { destruct (cmd_addmovie_pending fancy e w m) as [-> | (u & rep & p & _ & _ & _ & _ & ->)];
      [exact Hs|].
    destruct (decide (u = uid)) as [->|Hu]; [rewrite lookup_insert_eq; eauto|].
    by rewrite lookup_insert_ne. }
  destruct (bool_decide (m_photo m ≠ None) && bool_decide (m_from m = Some ADMIN)) eqn:Hb.
  { apply andb_true_iff in Hb as [_ Hb]. apply bool_decide_eq_true in Hb.
    destruct (receive_cover_world fancy e w m)
      as [-> | (u & p & cv & db' & Hf & _ & _ & _ & ->)]; [exact Hs|].
    rewrite Hb in Hf. injection Hf as <-. cbn.
    by rewrite lookup_delete_ne by congruence. }
  destruct (is_command "start" m); [|exact Hs].
  by rewrite cmd_start_world.
Qed.


End PendingFacts.

(** C10: a photo from the admin while no pending upload exists for them
    is ignored by [receive_cover]: no effect at all (no reply, no
    database write) and the state, pending map included, is unchanged. *)
Theorem receive_cover_without_pending_ignored (fancy : string → option string)
    (e : Bot.env) (w : Bot.world) (m : Bot.message) (uid : Z) :
  Bot.m_from m = Some uid →
  Bot.w_pending w !! uid = None →
  Bot.receive_cover fancy e w m = Bot.mkRes w [] false.
Proof. intros Hf Hp. unfold Bot.receive_cover. by rewrite Hf, Hp. Qed.


(** C10 witness. *)
Lemma receive_cover_without_pending_ignored_witness :
  Bot.m_from Samples.msg_cover = Some 42%Z ∧ Bot.w_pending Samples.w0 !! 42%Z = None ∧
  Bot.receive_cover Fancy.fancy Samples.env_ok Samples.w0 Samples.msg_cover
  = Bot.mkRes Samples.w0 [] false.
Proof.
  split; [reflexivity|]. split; [reflexivity|].
  apply (receive_cover_without_pending_ignored Fancy.fancy Samples.env_ok Samples.w0
           Samples.msg_cover 42%Z); reflexivity.
Defined.







(** C3: [user_in_all_channels] is true exactly when every configured
    channel reports a status in {member, administrator, creator}; a query
    failure or any other status on a channel makes it false, and the
    channels are queried in order, stopping at the first failing one. *)
Theorem user_in_all_channels_gate (e : Bot.env) (chs : list string) (uid : Z) :
  ((Bot.user_in_all_channels e chs uid).1 = true
     ↔ Forall (λ ch, Bot.member_ok (Bot.e_member e ch uid)) chs) ∧
  (∀ pre ch post, chs = pre ++ ch :: post →
     Forall (λ c, Bot.member_ok (Bot.e_member e c uid)) pre →
     ¬ Bot.member_ok (Bot.e_member e ch uid) →
     (Bot.user_in_all_channels e chs uid).1 = false ∧
     Bot.queried (Bot.user_in_all_channels e chs uid).2 = pre ++ [ch]).
Proof.
  split; [apply BotFacts.user_in_all_channels_true|].
  intros pre ch post ->. apply BotFacts.user_in_all_channels_prefix.
Qed.

(** C3 witness: member of [@A], status "left" in [@B]. *)
Lemma user_in_all_channels_gate_witness :
  (Bot.user_in_all_channels
     (Bot.mkEnv true None (λ ch _, if String.eqb ch "@A" then Some "member" else Some "left") 0)
     Samples.CHS 7).1 = false ∧
  Bot.queried (Bot.user_in_all_channels
     (Bot.mkEnv true None (λ ch _, if String.eqb ch "@A" then Some "member" else Some "left") 0)
     Samples.CHS 7).2 = ["@A"; "@B"].
Proof.
  apply (proj2 (user_in_all_channels_gate
           (Bot.mkEnv true None (λ ch _, if String.eqb ch "@A" then Some "member" else Some "left") 0)
           Samples.CHS 7) ["@A"] "@B" []); [reflexivity | | ].
  - constructor; [|constructor]. apply (bool_decide_unpack _). vm_compute. reflexivity.
  - apply (bool_decide_unpack _). vm_compute. reflexivity.
Defined.

Module StoreFacts.
Import Store.


Lemma same_key_true (r1 r2 : row) : same_key r1 r2 = true ↔ key r1 = key r2.
Proof.
  unfold same_key, key. rewrite andb_true_iff, !String.eqb_eq.
  split; [intros [-> ->]; reflexivity | intros [= -> ->]; auto].
Qed.

Lemma filter_same_key_nil (k : row) (t : table) :
  existsb (same_key k) t = false → List.filter (same_key k) t = [].
Proof.
  induction t as [|a t IH]; simpl; [done|].
  intros [H1 H2]%orb_false_iff. rewrite H1. auto.
Qed.

Lemma existsb_same_key_in (k : row) (t : table) :
  existsb (same_key k) t = true ↔ key k ∈ map key t.
Proof.
  rewrite existsb_exists, list_elem_of_In, in_map_iff.
  split; intros [x [H1 H2]]; exists x.
  - by apply same_key_true in H2.
  - split; [done|]. by apply same_key_true.
Qed.

Lemma filter_same_key_single (k : row) (t : table) :
  pk_ok t → existsb (same_key k) t = true →
  ∃ r, List.filter (same_key k) t = [r].
Proof.
  unfold pk_ok. induction t as [|a t IH]; simpl; [discriminate|].
  intros Hnd Hex. apply NoDup_cons in Hnd as [Hnin Hnd].
  destruct (same_key k a) eqn:Ha.
  - exists a. f_equal. apply filter_same_key_nil.
    destruct (existsb (same_key k) t) eqn:E; [|done].
    exfalso. apply Hnin. apply existsb_same_key_in in E.
    apply same_key_true in Ha. unfold key in E, Ha. rewrite <- Ha. exact E.
  - apply IH; auto.
Qed.

Lemma same_key_cover (c f cv1 cv2 : string) :
  same_key (mkRow c f cv1) = same_key (mkRow c f cv2).
Proof. reflexivity. Qed.

Lemma existsb_app_single (k : row) (t : table) :
  existsb (same_key k) (t ++ [k]) = true.
Proof.
  rewrite existsb_app. apply orb_true_iff. right. simpl.
  rewrite (proj2 (same_key_true k k) eq_refl). reflexivity.
Qed.


Lemma filter_Permutation (p : row → bool) (t t' : table) :
  t ≡ₚ t' → List.filter p t ≡ₚ List.filter p t'.
Proof.
  induction 1 as [|x t t' _ IH|x y t|t t' t'' _ IH1 _ IH2]; simpl.
  - done.
  - destruct (p x); [constructor|]; done.
  - destruct (p x), (p y); try constructor; done.
  - by rewrite IH1.
Qed.

Lemma pk_ok_Permutation (t t' : table) : pk_ok t → t ≡ₚ t' → pk_ok t'.
Proof. unfold pk_ok. intros Hnd Hp. by rewrite <- Hp. Qed.

Lemma pk_unique (t : table) (r1 r2 : row) :
  pk_ok t → r1 ∈ t → r2 ∈ t → key r1 = key r2 → r1 = r2.
Proof.
  unfold pk_ok. induction t as [|a t IH]; simpl.
  - intros _ H. by apply elem_of_nil in H.
  - intros [Hnin Hnd]%NoDup_cons H1 H2 Hk.
    apply elem_of_cons in H1, H2.
    unfold key in Hk. destruct H1 as [->|H1], H2 as [->|H2]; auto.
    + exfalso. apply Hnin. rewrite Hk. apply list_elem_of_In, (in_map (λ r : row, (code r, file_id r))), list_elem_of_In, H2.
    + exfalso. apply Hnin. rewrite <- Hk. apply list_elem_of_In, (in_map (λ r : row, (code r, file_id r))), list_elem_of_In, H1.
Qed.


Lemma in_selected (t : table) (c : string) (x : string * string) :
  x ∈ map pr (List.filter (λ r, String.eqb (code r) c) t) →
  ∃ r, r ∈ t ∧ code r = c ∧ x = pr r.
Proof.
  rewrite list_elem_of_In, in_map_iff. intros [r [<- Hr]].
  apply filter_In in Hr as [Hr Hc]. apply String.eqb_eq in Hc.
  exists r. rewrite list_elem_of_In. auto.
Qed.

Lemma get_movies_unique (t t' : table) (c : string) :
  pk_ok t → t ≡ₚ t' →
  merge_sort file_le (map pr (List.filter (λ r, String.eqb (code r) c) t'))
  = merge_sort file_le (map pr (List.filter (λ r, String.eqb (code r) c) t)).
Proof.
  intros Hpk Hp.
  assert (Hperm : map pr (List.filter (λ r, String.eqb (code r) c) t')
                  ≡ₚ map pr (List.filter (λ r, String.eqb (code r) c) t)).
  { apply Permutation_map. symmetry. by apply filter_Permutation. }
  apply (Sorted_unique_strong file_le).
  - intros x1 x2 Hx1 Hx2 H12 H21.
    rewrite merge_sort_Permutation, Hperm in Hx1.
    rewrite merge_sort_Permutation in Hx2.
    destruct (in_selected _ _ _ Hx1) as [r1 [Hr1 [Hc1 ->]]].
    destruct (in_selected _ _ _ Hx2) as [r2 [Hr2 [Hc2 ->]]].
    unfold file_le, pr in H12, H21. simpl in H12, H21.
    pose proof (String.leb_antisym _ _ H12 H21) as Hf.
    assert (r1 = r2) as ->; [|reflexivity].
    apply (pk_unique t); auto. unfold key. congruence.
  - apply Sorted_merge_sort, file_le_total.
  - apply Sorted_merge_sort, file_le_total.
  - by rewrite !merge_sort_Permutation.
Qed.

End StoreFacts.

(** C4: on a table that satisfies its primary key, calling
    [db_add_movie] twice with the same [(code, file_id)] and any two
    covers raises no error, the second call leaves the table of the first
    call as it is, and exactly one row carries that key; when the key was
    new, that row holds the first call's cover. *)
Theorem db_add_movie_idempotent (t : Store.table) (c f cv1 cv2 : string) :
  Store.pk_ok t →
  ∃ t1, Store.db_add_movie true t c f cv1 = Some t1 ∧
        Store.db_add_movie true t1 c f cv2 = Some t1 ∧
        Store.pk_ok t1 ∧
        ∃ r, List.filter (Store.same_key (Store.mkRow c f cv1)) t1 = [r] ∧
             (existsb (Store.same_key (Store.mkRow c f cv1)) t = false →
              r = Store.mkRow c f cv1).
Proof.
  intros Hpk. unfold Store.db_add_movie, Store.sql_insert.
  rewrite <- (StoreFacts.same_key_cover c f cv1 cv2).
  destruct (existsb (Store.same_key (Store.mkRow c f cv1)) t) eqn:E.
  - exists t. rewrite E. split; [done|]. split; [done|]. split; [done|].
    destruct (StoreFacts.filter_same_key_single _ _ Hpk E) as [r Hr].
    exists r. split; [exact Hr | discriminate].
  - exists (t ++ [Store.mkRow c f cv1]).
    rewrite StoreFacts.existsb_app_single.
    split; [done|]. split; [done|]. split.
    + unfold Store.pk_ok. rewrite map_app. simpl.
      apply NoDup_app. split; [exact Hpk|]. split; [|apply NoDup_singleton].
      intros x Hx Hx'. apply list_elem_of_singleton in Hx' as ->.
      assert (Hin : existsb (Store.same_key (Store.mkRow c f cv1)) t = true)
        by (apply StoreFacts.existsb_same_key_in; exact Hx).
      congruence.
    + exists (Store.mkRow c f cv1). split; [|done].
      rewrite List.filter_app, (StoreFacts.filter_same_key_nil _ _ E). simpl.
      rewrite (proj2 (StoreFacts.same_key_true _ _) eq_refl). reflexivity.
Qed.

(** C4 witness: an empty table, covers [c1] then [c2]. *)
Lemma db_add_movie_idempotent_witness :
  Store.db_add_movie true [] "demo" "vid1" "c1" = Some [Store.mkRow "demo" "vid1" "c1"] ∧
  ∃ t1, Store.db_add_movie true [] "demo" "vid1" "c1" = Some t1 ∧
        Store.db_add_movie true t1 "demo" "vid1" "c2" = Some t1 ∧
        Store.pk_ok t1 ∧
        ∃ r, List.filter (Store.same_key (Store.mkRow "demo" "vid1" "c1")) t1 = [r] ∧
             (existsb (Store.same_key (Store.mkRow "demo" "vid1" "c1")) [] = false →
              r = Store.mkRow "demo" "vid1" "c1").
Proof.
  split; [reflexivity|].
  apply (db_add_movie_idempotent [] "demo" "vid1" "c1" "c2"). constructor.
Defined.

(** C5: [db_get_movies] returns every entry of the code, sorted by
    [file_id] ascending, whatever the insertion order of the table (any
    permutation of the rows gives the same answer); it returns the empty
    list, not an error, when the code has no entries; [ep01], [ep10],
    [ep02] inserted in that order come back as [ep01], [ep02], [ep10]. *)
Theorem db_get_movies_sorted (t t' : Store.table) (c : string) :
  Store.pk_ok t → t ≡ₚ t' →
  (∃ rows, Store.db_get_movies true t c = Some rows ∧ Sorted Store.file_le rows ∧
           rows ≡ₚ map (λ r, (Store.file_id r, Store.cover_id r))
                      (List.filter (λ r, String.eqb (Store.code r) c) t)) ∧
  Store.db_get_movies true t' c = Store.db_get_movies true t c ∧
  (List.filter (λ r, String.eqb (Store.code r) c) t = [] →
   Store.db_get_movies true t c = Some []) ∧
  Store.db_get_movies true [Store.mkRow c "ep01" "c1"; Store.mkRow c "ep10" "c10";
                            Store.mkRow c "ep02" "c2"] c
  = Some [("ep01", "c1"); ("ep02", "c2"); ("ep10", "c10")].
Proof.
  intros Hpk Hp. unfold Store.db_get_movies. split; [|split; [|split]].
  - eexists. split; [reflexivity|]. split.
    + apply Sorted_merge_sort, Store.file_le_total.
    + apply merge_sort_Permutation.
  - f_equal. apply (StoreFacts.get_movies_unique t t' c Hpk Hp).
  - intros ->. reflexivity.
  - simpl. rewrite String.eqb_refl. reflexivity.
Qed.

(** C5 witness: one code, rows inserted as [ep10] then [ep01]. *)
Lemma db_get_movies_sorted_witness :
  Store.db_get_movies true [Store.mkRow "demo" "ep10" "c10"; Store.mkRow "demo" "ep01" "c1"] "demo"
  = Some [("ep01", "c1"); ("ep10", "c10")] ∧
  Store.db_get_movies true [Store.mkRow "demo" "ep01" "c1"; Store.mkRow "demo" "ep10" "c10"] "demo"
  = Store.db_get_movies true [Store.mkRow "demo" "ep10" "c10"; Store.mkRow "demo" "ep01" "c1"] "demo".
Proof.
  split; [vm_compute; reflexivity|].
  apply (db_get_movies_sorted
           [Store.mkRow "demo" "ep10" "c10"; Store.mkRow "demo" "ep01" "c1"]
           [Store.mkRow "demo" "ep01" "c1"; Store.mkRow "demo" "ep10" "c10"] "demo").
  - unfold Store.pk_ok. simpl. repeat constructor; vm_compute; intros H;
      repeat (inversion H as [|? ? ? H']; subst; clear H; rename H' into H).
  - apply Permutation_swap.
Defined.

Module DeliveryFacts.
Import Bot.

Lemma membership_effects_no_video (e : env) (chs : list string) (uid : Z) :
  Forall (λ ef, is_video ef = false) (user_in_all_channels e chs uid).2.
Proof.
  induction chs as [|ch chs IH]; simpl; [constructor|].
  destruct (e_member e ch uid) as [st|]; [|repeat constructor].
  destruct (_ || _); [|repeat constructor].
  destruct (user_in_all_channels e chs uid) as [b out]. simpl in *. by constructor.
Qed.

Lemma gate_false_nonempty (e : env) (chs : list string) (uid : Z) :
  (user_in_all_channels e chs uid).1 = false → chs ≠ [].
Proof. destruct chs; [discriminate|]. intros _. discriminate. Qed.

Lemma join_buttons_fancy (chs : list string) :
  chs ≠ [] → join_buttons Fancy.fancy chs = None.
Proof.
  destruct chs as [|ch chs]; [done|]. intros _. cbn [join_buttons].
  unfold join_button. by rewrite FancyFacts.fancy_none.
Qed.

Definition total_button (g : string → string) (ch : string) : list button :=
  [UrlButton (g "📢 Join " ++ g (Py.lstrip_at (Py.strip ch)))
             ("https://t.me/" ++ Py.lstrip_at (Py.strip ch))].

Lemma join_buttons_total (g : string → string) (chs : list string) :
  join_buttons (λ s, Some (g s)) chs = Some (map (total_button g) chs).
Proof. induction chs as [|ch chs IH]; simpl; [done|]. by rewrite IH. Qed.

End DeliveryFacts.

(** C6 (code bug): a user who fails the membership gate, asking for a
    code with at least one stored entry, gets no reply at all: after the
    membership queries the first [fancy] call of the join buttons raises
    [ValueError], so no cover, no join button and no retry button is
    sent; no video is sent either and the state is unchanged.  The
    intended reply is the one the handler builds when [fancy] returns:
    the first entry's cover with the locked-content caption, one join
    button per configured channel (linking to that channel) and a last
    button whose link is the share link of the same code (whose start
    argument decodes back to that code). *)
Theorem cmd_start_locked (CHS : list string) (DEL : Z)
    (e : Bot.env) (w : Bot.world) (m : Bot.message) (cmd arg : string)
    (more : list string) (uid : Z) (f0 cv0 : string) (rows : list (string * string)) :
  Bot.m_cmd m = Some (cmd :: arg :: more) →
  Store.db_get_movies (Bot.e_db_up e) (Bot.w_db w) (Url.unquote (Py.strip arg))
    = Some ((f0, cv0) :: rows) →
  Bot.m_from m = Some uid →
  (Bot.user_in_all_channels e CHS uid).1 = false →
  Bot.cmd_start CHS DEL Fancy.fancy e w m
    = Bot.mkRes w (Bot.user_in_all_channels e CHS uid).2 true ∧
  CHS ≠ [] ∧
  Forall (λ ef, Bot.is_video ef = false) (Bot.h_out (Bot.cmd_start CHS DEL Fancy.fancy e w m)) ∧
  (∀ (g : string → string) (u : string), Bot.e_me e = Some u →
     Bot.cmd_start CHS DEL (λ s, Some (g s)) e w m
     = Bot.mkRes w ((Bot.user_in_all_channels e CHS uid).2 ++
          [Bot.ReplyPhoto cv0 (g "🔒 Join all channels to unlock this movie.")
             (map (DeliveryFacts.total_button g) CHS ++
              [[Bot.UrlButton (g "✅ I Joined - Get Movie")
                              (Bot.share_link u (Url.unquote (Py.strip arg)))]])]) false) ∧
  Url.unquote (Url.quote (Url.unquote (Py.strip arg))) = Url.unquote (Py.strip arg).
Proof.
  intros Hcmd Hdb Hf Hgate.
  pose proof (DeliveryFacts.gate_false_nonempty e CHS uid Hgate) as Hne.
  assert (Heq : Bot.cmd_start CHS DEL Fancy.fancy e w m
                = Bot.mkRes w (Bot.user_in_all_channels e CHS uid).2 true).
  { unfold Bot.cmd_start. rewrite Hcmd. simpl. rewrite Hdb, Hf.
    destruct (Bot.user_in_all_channels e CHS uid) as [ok checks]. simpl in Hgate. subst ok.
    by rewrite DeliveryFacts.join_buttons_fancy. }
  split; [exact Heq|]. split; [exact Hne|]. split.
  { rewrite Heq. apply DeliveryFacts.membership_effects_no_video. }
  split; [|apply UrlFacts.unquote_quote].
  intros g u Hme. unfold Bot.cmd_start. rewrite Hcmd. simpl. rewrite Hdb, Hf.
  destruct (Bot.user_in_all_channels e CHS uid) as [ok checks]. simpl in Hgate. subst ok.
  rewrite DeliveryFacts.join_buttons_total, Hme. reflexivity.
Qed.

(** C6 witness: user 7, member of no channel, asks for [demo]. *)
Lemma cmd_start_locked_witness :
  Bot.cmd_start Samples.CHS 1200 Fancy.fancy Samples.env_stranger Samples.w_demo
    Samples.msg_start_demo
  = Bot.mkRes Samples.w_demo [Bot.GetChatMember "@A" 7] true ∧
  Bot.cmd_start Samples.CHS 1200 Some Samples.env_stranger Samples.w_demo Samples.msg_start_demo
  = Bot.mkRes Samples.w_demo [Bot.GetChatMember "@A" 7;
      Bot.ReplyPhoto "cover1" "🔒 Join all channels to unlock this movie."
        [[Bot.UrlButton ("📢 Join " ++ "A") "https://t.me/A"];
         [Bot.UrlButton ("📢 Join " ++ "B") "https://t.me/B"];
         [Bot.UrlButton "✅ I Joined - Get Movie" "https://t.me/moviebot?start=demo"]]] false.
Proof.
  pose proof (cmd_start_locked Samples.CHS 1200 Samples.env_stranger Samples.w_demo
           Samples.msg_start_demo "start" "demo" [] 7 "vid1" "cover1" []
           ltac:(reflexivity) ltac:(vm_compute; reflexivity) ltac:(reflexivity)
           ltac:(vm_compute; reflexivity)) as (H1 & _ & _ & H2 & _).
  split.
  - rewrite H1. reflexivity.
  - exact (H2 (λ s, s) "moviebot" eq_refl).
Defined.

Module StartupFacts.
Import Startup.


Lemma load_config_missing (environ : string → option string) (int_of : string → option Z)
    (name : string) :
  name ∈ REQUIRED → environ name = None ∨ environ name = Some "" →
  ∃ err, load_config environ int_of = inl err.
Proof.
  intros Hin Hmiss.
  assert (Hreq : ∀ v, require_env environ name ≠ inr v).
  { intros v. unfold require_env. destruct Hmiss as [-> | ->]; discriminate. }
  unfold REQUIRED in Hin. rewrite !elem_of_cons, elem_of_nil in Hin.
  unfold load_config. run_binds; eauto;
  exfalso; destruct Hin as [->|[->|[->|[->|[->|[->|[]]]]]]]; eapply Hreq; eassumption.
Qed.

End StartupFacts.

(** C8: an unset (or empty) required setting ends start-up with a fatal
    error before the keep-alive server or the bot is started; once the
    configuration loads, the bot is started whether or not database
    initialisation succeeds (a failure is only logged). *)
Theorem startup_policy (environ : string → option string) (int_of : string → option Z) :
  (∀ name, name ∈ Startup.REQUIRED → environ name = None ∨ environ name = Some "" →
     ∀ db_ok, Startup.serves (Startup.main environ int_of db_ok) = false ∧
              ∃ err out, Startup.main environ int_of db_ok = Startup.Fatal err out) ∧
  (∀ cfg, Startup.load_config environ int_of = inr cfg →
     Startup.main environ int_of true
       = Startup.Started [Startup.StartKeepalive (Startup.PORT cfg); Startup.DbInitialized;
                          Startup.BotRun] ∧
     Startup.main environ int_of false
       = Startup.Started [Startup.StartKeepalive (Startup.PORT cfg);
                          Startup.LogError "Database initialization failed at startup.";
                          Startup.BotRun]).
Proof.
  split.
  - intros name Hin Hmiss db_ok.
    destruct (StartupFacts.load_config_missing environ int_of name Hin Hmiss) as [err Herr].
    unfold Startup.main. rewrite Herr. split; [reflexivity|]. eauto.
  - intros cfg Hcfg. unfold Startup.main. rewrite Hcfg. split; reflexivity.
Qed.

(** C8 witness: only [API_ID] is missing, then a complete environment. *)
Lemma startup_policy_witness :
  Startup.serves (Startup.main (λ n, if String.eqb n "API_ID" then None
                                     else if String.eqb n "LOG_LEVEL" then None else Some "1")
                               (λ _, Some 1%Z) true) = false ∧
  Startup.main (λ n, if String.eqb n "LOG_LEVEL" then Some "INFO" else Some "1")
               (λ _, Some 1%Z) false
  = Startup.Started [Startup.StartKeepalive 1;
                     Startup.LogError "Database initialization failed at startup.";
                     Startup.BotRun].
Proof.
  split.
  - apply (proj1 (startup_policy (λ n, if String.eqb n "API_ID" then None
                                       else if String.eqb n "LOG_LEVEL" then None else Some "1")
                                 (λ _, Some 1%Z)) "API_ID"); [|left; reflexivity].
    apply (bool_decide_unpack _). vm_compute. reflexivity.
  - apply (proj2 (startup_policy (λ n, if String.eqb n "LOG_LEVEL" then Some "INFO" else Some "1")
                                 (λ _, Some 1%Z))
             (Startup.mkConfig 1 "1" "1" 1 "1" "1"
                (map Py.strip (List.filter (λ c, negb (String.eqb (Py.strip c) ""))
                                           (Startup.split_comma "1"))) 1 1)).
    vm_compute. reflexivity.
Defined.


(** C9: whatever message arrives, the handler Pyrogram runs for it
    leaves the pending map unchanged, stores for the sender a record
    whose code is non-empty and free of spaces and whose content
    reference is the file of the replied-to video or document, or removes
    one entry; so every record the map ever holds has such a code. *)
Theorem pending_map_invariant (ADMIN : Z) (SRC : string) (CHS : list string) (DEL : Z)
    (fancy : string → option string) (e : Bot.env) (w : Bot.world) (m : Bot.message) :
  (Bot.w_pending (Bot.h_world (Bot.dispatch ADMIN SRC CHS DEL fancy e w m)) = Bot.w_pending w ∨
   (∃ uid rep p, Bot.m_from m = Some uid ∧ Bot.m_reply m = Some rep ∧
      Bot.replied_file_id rep = Some (Bot.p_file_id p) ∧ Bot.pending_ok p ∧
      Bot.w_pending (Bot.h_world (Bot.dispatch ADMIN SRC CHS DEL fancy e w m))
        = <[uid := p]> (Bot.w_pending w)) ∨
   (∃ uid, Bot.w_pending (Bot.h_world (Bot.dispatch ADMIN SRC CHS DEL fancy e w m))
             = delete uid (Bot.w_pending w))) ∧
  (map_Forall (λ _, Bot.pending_ok) (Bot.w_pending w) →
   map_Forall (λ _, Bot.pending_ok)
     (Bot.w_pending (Bot.h_world (Bot.dispatch ADMIN SRC CHS DEL fancy e w m)))).
Proof.
  assert (Hstep :
    Bot.w_pending (Bot.h_world (Bot.dispatch ADMIN SRC CHS DEL fancy e w m)) = Bot.w_pending w ∨
    Bot.add_step m (Bot.w_pending w)
      (Bot.w_pending (Bot.h_world (Bot.dispatch ADMIN SRC CHS DEL fancy e w m))) ∨
    (∃ uid, Bot.w_pending (Bot.h_world (Bot.dispatch ADMIN SRC CHS DEL fancy e w m))
              = delete uid (Bot.w_pending w))).
  { unfold Bot.dispatch.
    destruct (_ && _).
    { destruct (PendingFacts.cmd_addmovie_pending fancy e w m); auto. }
    destruct (_ && _).
    { destruct (PendingFacts.receive_cover_pending fancy e w m); auto. }
    destruct (Bot.is_command "start" m); [|auto].
    left. by rewrite PendingFacts.cmd_start_world. }
  split; [exact Hstep|].
  intros Hall. destruct Hstep as [-> | [[uid [rep [p [_ [_ [_ [Hp ->]]]]]]] | [uid ->]]].
  - exact Hall.
  - by apply map_Forall_insert_2.
  - by apply map_Forall_delete.
Qed.

(** C9 witness: [/addmovie demo] from the admin, replying to [vid1]. *)
Lemma pending_map_invariant_witness :
  Bot.w_pending (Bot.h_world (Bot.dispatch Samples.ADMIN Samples.SRC Samples.CHS 1200 Fancy.fancy
                   Samples.env_ok Samples.w0 Samples.msg_add))
  = <[42%Z := Bot.mkPending "demo" "vid1" 1000]> ∅ ∧
  map_Forall (λ _, Bot.pending_ok)
    (Bot.w_pending (Bot.h_world (Bot.dispatch Samples.ADMIN Samples.SRC Samples.CHS 1200 Fancy.fancy
                      Samples.env_ok Samples.w0 Samples.msg_add))).
Proof.
  split; [vm_compute; reflexivity|].
  apply (pending_map_invariant Samples.ADMIN Samples.SRC Samples.CHS 1200 Fancy.fancy
           Samples.env_ok Samples.w0 Samples.msg_add).
  apply map_Forall_empty.
Defined.

(* ------------------------------------------------------------------ *)
(** ** Further properties of the code *)

(** [str.maketrans] and [str.translate] as modelled, on a table of equal
    lengths. *)
Example fancy_translate_sample :
  Fancy.maketrans "ab" "xy" = Some [("a", "x"); ("b", "y")] ∧
  Fancy.translate [("a", "x"); ("b", "y")] "abc" = "xyc".
Proof. split; reflexivity. Qed.

(** [fancy] raises [ValueError] on every input: [normal] has 62 code
    points and the [fancy_bold] literal 248, so [str.maketrans] refuses
    them. *)
Theorem fancy_always_raises (text : string) :
  Fancy.py_len Fancy.normal = 62 ∧ Fancy.py_len Fancy.fancy_bold = 248 ∧
  Fancy.fancy text = None.
Proof.
  split; [vm_compute; reflexivity|]. split; [vm_compute; reflexivity|].
  unfold Fancy.fancy, Fancy.maketrans.
  replace (Nat.eqb (Fancy.py_len Fancy.normal) (Fancy.py_len Fancy.fancy_bold)) with false
    by (vm_compute; reflexivity).
  reflexivity.
Qed.

Module UrlFacts2.
Import Url.

Lemma has_char_append (c : ascii) (a b : string) :
  Py.has_char c (String.append a b) = Py.has_char c a || Py.has_char c b.
Proof. induction a as [|d a IH]; simpl; [reflexivity|]. by rewrite IH, orb_assoc. Qed.

Lemma quote_char_alphabet (c d : ascii) :
  Py.has_char c (quote_char d) = true → url_char c = true.
Proof.
  destruct d as [[] [] [] [] [] [] [] []]; vm_compute quote_char; cbn [Py.has_char]; intros H;
    repeat (apply orb_true_iff in H as [H|H]); try discriminate;
    apply Ascii.eqb_eq in H; subst; reflexivity.
Qed.

Lemma quote_alphabet (s : string) (c : ascii) :
  Py.has_char c (quote s) = true → url_char c = true.
Proof.
  induction s as [|d s IH]; simpl; [discriminate|].
  rewrite has_char_append. intros [H|H]%orb_true_iff; eauto using quote_char_alphabet.
Qed.

Lemma has_char_false_of_alphabet (s : string) (c : ascii) :
  url_char c = false → Py.has_char c (quote s) = false.
Proof.
  intros Hc. destruct (Py.has_char c (quote s)) eqn:H; [|reflexivity].
  apply quote_alphabet in H. congruence.
Qed.

End UrlFacts2.

(** The deep-link argument built by [quote] only contains unreserved
    characters, ['/'], ['%'] and upper-case hex digits; in particular no
    space, ['&'], ['?'], ['#'], ['='] or ['+']. *)
Theorem quote_output_alphabet (s : string) :
  (∀ c, Py.has_char c (Url.quote s) = true → Url.url_char c = true) ∧
  Forall (λ c, Py.has_char c (Url.quote s) = false) [" "; "&"; "?"; "#"; "="; "+"]%char.
Proof.
  split; [apply UrlFacts2.quote_alphabet|].
  repeat constructor; apply UrlFacts2.has_char_false_of_alphabet; reflexivity.
Qed.

(** [unquote] leaves a string without ['%'] unchanged. *)
Theorem unquote_no_percent (s : string) :
  Py.has_char "%"%char s = false → Url.unquote s = s.
Proof.
  induction s as [|c s IH]; simpl; [reflexivity|].
  intros [Hc Hs]%orb_false_iff.
  replace (Ascii.eqb c "%") with false by (by rewrite Ascii.eqb_sym).
  by rewrite IH.
Qed.

Lemma unquote_no_percent_witness :
  Py.has_char "%"%char "a+b&c" = false ∧ Url.unquote "a+b&c" = "a+b&c".
Proof. split; [reflexivity|]. apply unquote_no_percent. reflexivity. Defined.

Module StoreFacts2.
Import Store.

Lemma filter_code_other (t : table) (r : row) (c' : string) :
  code r ≠ c' →
  List.filter (λ x, String.eqb (code x) c') (t ++ [r]) = List.filter (λ x, String.eqb (code x) c') t.
Proof.
  intros Hne. rewrite List.filter_app. simpl.
  destruct (String.eqb_spec (code r) c'); [contradiction|]. apply app_nil_r.
Qed.

Lemma file_ids_NoDup (t : table) (c : string) :
  pk_ok t → NoDup (map file_id (List.filter (λ x, String.eqb (code x) c) t)).
Proof.
  unfold pk_ok. induction t as [|a t IH]; simpl; [constructor|].
  intros [Hnin Hnd]%NoDup_cons.
  destruct (String.eqb_spec (code a) c) as [Hc|Hc]; simpl; [|auto].
  constructor; [|auto].
  intros Hin. apply Hnin. apply list_elem_of_In in Hin. apply in_map_iff in Hin as [r [Hf Hr]].
  apply filter_In in Hr as [Hr Hrc]. apply String.eqb_eq in Hrc.
  apply list_elem_of_In, in_map_iff. exists r. split; [|exact Hr]. congruence.
Qed.

End StoreFacts2.

(** Insert then list: after a successful [db_add_movie c f cv], listing
    [c] gives the previous entries plus [(f, cv)] when the key was new,
    and the table is unchanged when the key existed; listings of the
    other codes are not affected. *)
Theorem db_add_movie_then_get (t t' : Store.table) (c f cv : string) :
  Store.db_add_movie true t c f cv = Some t' →
  (existsb (Store.same_key (Store.mkRow c f cv)) t = false →
   ∃ rows rows', Store.db_get_movies true t c = Some rows ∧
                 Store.db_get_movies true t' c = Some rows' ∧ rows' ≡ₚ (f, cv) :: rows) ∧
  (existsb (Store.same_key (Store.mkRow c f cv)) t = true → t' = t) ∧
  (∀ c', c' ≠ c → Store.db_get_movies true t' c' = Store.db_get_movies true t c').
Proof.
  unfold Store.db_add_movie, Store.sql_insert.
  destruct (existsb (Store.same_key (Store.mkRow c f cv)) t) eqn:E; intros [= <-].
  - split; [discriminate|]. split; [done|]. intros; reflexivity.
  - split; [|split; [discriminate|]].
    + intros _. unfold Store.db_get_movies. do 2 eexists. split; [reflexivity|].
      split; [reflexivity|].
      rewrite !merge_sort_Permutation, List.filter_app. simpl.
      rewrite String.eqb_refl, map_app. simpl. by rewrite Permutation_app_comm.
    + intros c' Hne. unfold Store.db_get_movies.
      by rewrite StoreFacts2.filter_code_other by (simpl; congruence).
Qed.

Lemma db_add_movie_then_get_witness :
  Store.db_get_movies true [Store.mkRow "demo" "vid1" "c1"] "demo" = Some [("vid1", "c1")] ∧
  Store.db_get_movies true [Store.mkRow "demo" "vid1" "c1"] "other"
  = Store.db_get_movies true [] "other".
Proof.
  split; [reflexivity|].
  apply (db_add_movie_then_get [] [Store.mkRow "demo" "vid1" "c1"] "demo" "vid1" "c1");
    [reflexivity | discriminate].
Defined.

(** On a table that satisfies its primary key, the entries listed for a
    code have pairwise distinct [file_id]s. *)
Theorem db_get_movies_distinct_files (t : Store.table) (c : string) (rows : list (string * string)) :
  Store.pk_ok t → Store.db_get_movies true t c = Some rows → NoDup (map fst rows).
Proof.
  intros Hpk [= <-].
  rewrite merge_sort_Permutation, map_map. simpl.
  by apply StoreFacts2.file_ids_NoDup.
Qed.

Lemma db_get_movies_distinct_files_witness :
  NoDup (map fst [("ep01", "c1"); ("ep02", "c2")]).
Proof.
  apply (db_get_movies_distinct_files
           [Store.mkRow "demo" "ep02" "c2"; Store.mkRow "demo" "ep01" "c1"] "demo").
  - repeat constructor; intros H; repeat (inversion H as [|? ? ? H']; subst; clear H; rename H' into H).
  - vm_compute. reflexivity.
Defined.

Module DeliveryFacts2.
Import Bot.

Lemma sent_videos_app (a b : list effect) : sent_videos (a ++ b) = sent_videos a ++ sent_videos b.
Proof. induction a as [|[] a IH]; simpl; rewrite ?IH; reflexivity. Qed.

Lemma membership_effects (e : env) (chs : list string) (uid : Z) :
  sent_videos (user_in_all_channels e chs uid).2 = [] ∧
  sent_photos (user_in_all_channels e chs uid).2 = [] ∧
  scheduled_deletions (user_in_all_channels e chs uid).2 = [] ∧
  ((user_in_all_channels e chs uid).1 = true → queried (user_in_all_channels e chs uid).2 = chs).
Proof.
  induction chs as [|ch chs IH]; simpl; [auto|].
  destruct (e_member e ch uid) as [st|]; [|simpl; repeat split; discriminate].
  destruct (_ || _); [|simpl; repeat split; discriminate].
  destruct (user_in_all_channels e chs uid) as [b out]. simpl in *.
  destruct IH as (H1 & H2 & H3 & H4). repeat split; auto.
  intros Hb. by rewrite H4.
Qed.

Lemma send_all_raises (DEL : Z) (r : string * string) (rows : list (string * string)) :
  send_all DEL Fancy.fancy (r :: rows) = ([], true).
Proof. destruct r. cbn [send_all]. by rewrite FancyFacts.fancy_none. Qed.

Lemma send_all_effects (DEL : Z) (g : string → string) (rows : list (string * string)) :
  sent_videos (send_all DEL (λ s, Some (g s)) rows).1 = map fst rows ∧
  sent_photos (send_all DEL (λ s, Some (g s)) rows).1 = map snd rows ∧
  scheduled_deletions (send_all DEL (λ s, Some (g s)) rows).1 = replicate (2 * length rows) DEL ∧
  queried (send_all DEL (λ s, Some (g s)) rows).1 = [] ∧
  (send_all DEL (λ s, Some (g s)) rows).2 = false.
Proof.
  induction rows as [|[f cv] rows IH]; simpl; [auto|].
  destruct (send_all DEL (λ s, Some (g s)) rows) as [out raised]. simpl in *.
  destruct IH as (H1 & H2 & H3 & H4 & H5).
  rewrite H1, H2, H3, H4, H5. repeat split. f_equal.
  replace (length rows + S (length rows + 0))%nat with (S (2 * length rows)) by lia.
  reflexivity.
Qed.

Lemma cmd_start_pass_eq (CHS : list string) (DEL : Z) (fancy : string → option string)
    (e : env) (w : world) (m : message) (cmd arg : string) (more : list string)
    (uid : Z) (rows : list (string * string)) :
  m_cmd m = Some (cmd :: arg :: more) →
  Store.db_get_movies (e_db_up e) (w_db w) (Url.unquote (Py.strip arg)) = Some rows →
  rows ≠ [] → m_from m = Some uid →
  (user_in_all_channels e CHS uid).1 = true →
  cmd_start CHS DEL fancy e w m
  = mkRes w ((user_in_all_channels e CHS uid).2 ++ (send_all DEL fancy rows).1)
          (send_all DEL fancy rows).2.
Proof.
  intros Hcmd Hdb Hne Hf Hgate.
  unfold cmd_start. rewrite Hcmd. simpl. rewrite Hdb.
  destruct rows as [|r rows']; [congruence|]. rewrite Hf.
  destruct (user_in_all_channels e CHS uid) as [ok checks]. simpl in Hgate. subst ok.
  by destruct (send_all DEL fancy (r :: rows')).
Qed.

End DeliveryFacts2.

(** [cmd_start] without an argument, with a failing database read, or
    for a code with no entries sends at most one text message, built by
    [fancy], and queries no membership nor sends any media; the state is
    unchanged.  With bot.py's [fancy] that text is never sent: the
    handler raises after logging the database error, if any. *)
Theorem cmd_start_early_exits (CHS : list string) (DEL : Z) (fancy : string → option string)
    (e : Bot.env) (w : Bot.world) (m : Bot.message) :
  (∀ cmd, Bot.m_cmd m = Some [cmd] →
     Bot.cmd_start CHS DEL fancy e w m
     = Bot.reply_fancy fancy w [] "🍿 Welcome! Click a Watch link in the channel to get a movie." ∧
     Bot.cmd_start CHS DEL Fancy.fancy e w m = Bot.mkRes w [] true) ∧
  (∀ cmd arg more, Bot.m_cmd m = Some (cmd :: arg :: more) → Bot.e_db_up e = false →
     Bot.cmd_start CHS DEL fancy e w m
     = Bot.reply_fancy fancy w [Bot.Log "DB error fetching movie"] "❌ Internal error fetching movie." ∧
     Bot.cmd_start CHS DEL Fancy.fancy e w m = Bot.mkRes w [Bot.Log "DB error fetching movie"] true) ∧
  (∀ cmd arg more, Bot.m_cmd m = Some (cmd :: arg :: more) → Bot.e_db_up e = true →
     List.filter (λ r, String.eqb (Store.code r) (Url.unquote (Py.strip arg))) (Bot.w_db w) = [] →
     Bot.cmd_start CHS DEL fancy e w m = Bot.reply_fancy fancy w [] "❌ Movie not found." ∧
     Bot.cmd_start CHS DEL Fancy.fancy e w m = Bot.mkRes w [] true).
Proof.
  unfold Bot.cmd_start. split; [|split].
  - intros cmd ->. split; [reflexivity|]. apply FancyFacts.reply_fancy_none.
  - intros cmd arg more -> Hdb. unfold Store.db_get_movies. rewrite Hdb.
    split; [reflexivity|]. apply FancyFacts.reply_fancy_none.
  - intros cmd arg more -> Hdb Hnil. unfold Store.db_get_movies. rewrite Hdb, Hnil.
    split; [reflexivity|]. apply FancyFacts.reply_fancy_none.
Qed.

Lemma cmd_start_early_exits_witness :
  Bot.cmd_start Samples.CHS 1200 Fancy.fancy Samples.env_ok Samples.w0 Samples.msg_start_demo
  = Bot.mkRes Samples.w0 [] true.
Proof.
  apply (proj2 (proj2 (cmd_start_early_exits Samples.CHS 1200 Fancy.fancy Samples.env_ok
                          Samples.w0 Samples.msg_start_demo)) "start" "demo" []); reflexivity.
Defined.



Module StripFacts.

Lemma has_char_In (c : ascii) (s : string) :
  Py.has_char c s = true ↔ In c (list_ascii_of_string s).
Proof.
  induction s as [|d s IH]; simpl; [split; [discriminate | tauto]|].
  rewrite orb_true_iff, IH, Ascii.eqb_eq. split; intros [H|H]; auto.
Qed.

Lemma url_char_not_space (c : ascii) : Url.url_char c = true → Py.is_space c = false.
Proof.
  destruct c as [[] [] [] [] [] [] [] []]; vm_compute; intros H;
    first [reflexivity | discriminate].
Qed.

Lemma lstrip_nospace (l : list ascii) :
  List.Forall (λ c, Py.is_space c = false) l →
  Py.lstrip (string_of_list_ascii l) = string_of_list_ascii l.
Proof.
  destruct l as [|c l]; intros H; [reflexivity|].
  inversion H as [|? ? Hc Hl]; subst. simpl. by rewrite Hc.
Qed.

Lemma strip_nospace (s : string) :
  (∀ c, Py.has_char c s = true → Py.is_space c = false) → Py.strip s = s.
Proof.
  intros H.
  assert (HF : List.Forall (λ c, Py.is_space c = false) (list_ascii_of_string s)).
  { apply List.Forall_forall. intros c Hc. apply H, has_char_In, Hc. }
  assert (Hl : Py.lstrip s = s).
  { rewrite <- (string_of_list_ascii_of_string s). by apply lstrip_nospace. }
  unfold Py.strip, Py.rstrip, Py.rev_str. rewrite Hl.
  rewrite lstrip_nospace by (apply List.Forall_rev; exact HF).
  by rewrite list_ascii_of_string_of_list_ascii, rev_involutive, string_of_list_ascii_of_string.
Qed.

Lemma strip_quote (c : string) : Py.strip (Url.quote c) = Url.quote c.
Proof.
  apply strip_nospace. intros d Hd.
  apply url_char_not_space, (UrlFacts2.quote_alphabet c), Hd.
Qed.

Lemma lstrip_all_space (s : string) :
  (∀ c, Py.has_char c s = true → Py.is_space c = true) → Py.lstrip s = "".
Proof.
  induction s as [|d s IH]; simpl; intros H; [reflexivity|].
  rewrite (H d) by (by rewrite Ascii.eqb_refl).
  apply IH. intros c Hc. apply H. by rewrite Hc, orb_true_r.
Qed.

Lemma strip_all_space (s : string) :
  (∀ c, Py.has_char c s = true → Py.is_space c = true) → Py.strip s = "".
Proof. intros H. unfold Py.strip. by rewrite lstrip_all_space. Qed.

End StripFacts.

Module ChannelFacts.

Lemma split_comma_aux_blank (acc s : string) :
  (∀ c, Py.has_char c acc = true → Py.is_space c = true) →
  (∀ c, Py.has_char c s = true → c = ","%char ∨ Py.is_space c = true) →
  ∀ x, In x (Startup.split_comma_aux acc s) →
       ∀ c, Py.has_char c x = true → Py.is_space c = true.
Proof.
  revert acc. induction s as [|d s IH]; simpl; intros acc Hacc Hs x Hx.
  - destruct Hx as [<-|[]]. exact Hacc.
  - destruct (Ascii.eqb d ","%char) eqn:Hd.
    + destruct Hx as [<-|Hx]; [exact Hacc|].
      eapply IH; [| |exact Hx].
      * intros c Hc. discriminate.
      * intros c Hc. apply Hs. by rewrite Hc, orb_true_r.
    + eapply IH; [| |exact Hx].
      * intros c Hc. rewrite UrlFacts2.has_char_append in Hc.
        apply orb_true_iff in Hc as [Hc|Hc]; [auto|].
        simpl in Hc. rewrite orb_false_r in Hc. apply Ascii.eqb_eq in Hc. subst c.
        destruct (Hs d) as [Hc'|Hc'].
        -- by rewrite Ascii.eqb_refl.
        -- subst d. vm_compute in Hd. discriminate.
        -- exact Hc'.
      * intros c Hc. apply Hs. by rewrite Hc, orb_true_r.
Qed.

Lemma filter_all_blank (l : list string) :
  (∀ x, In x l → ∀ c, Py.has_char c x = true → Py.is_space c = true) →
  List.filter (λ c, negb (String.eqb (Py.strip c) "")) l = [].
Proof.
  induction l as [|x l IH]; simpl; intros H; [reflexivity|].
  rewrite StripFacts.strip_all_space by (apply H; auto). simpl.
  apply IH. intros y Hy. apply H. auto.
Qed.

End ChannelFacts.

Module EndToEndFacts.
Import Store.

Lemma get_after_insert (t t' : table) (c f cv : string) :
  db_add_movie true t c f cv = Some t' →
  ∃ rows, db_get_movies true t' c = Some rows ∧ ∃ cv', In (f, cv') rows.
Proof.
  unfold db_add_movie, sql_insert, db_get_movies.
  destruct (existsb (same_key (mkRow c f cv)) t) eqn:E; intros [= <-];
    eexists; (split; [reflexivity|]).
  - apply existsb_exists in E as [x [Hx Hk]].
    apply StoreFacts.same_key_true in Hk. unfold key in Hk. simpl in Hk.
    injection Hk as Hc Hf.
    exists (cover_id x). eapply Permutation_in; [symmetry; apply merge_sort_Permutation|].
    apply in_map_iff. exists x. split; [by rewrite Hf|].
    apply filter_In. split; [exact Hx|]. rewrite Hc. apply String.eqb_refl.
  - exists cv. eapply Permutation_in; [symmetry; apply merge_sort_Permutation|].
    apply in_map_iff. exists (mkRow c f cv). split; [reflexivity|].
    apply filter_In. split; [apply in_or_app; right; left; reflexivity|].
    apply String.eqb_refl.
Qed.

Lemma dispatch_cover_real (ADMIN : Z) (SRC : string) (CHS : list string) (DEL : Z)
    (e : Bot.env) (w : Bot.world) (m : Bot.message) (cover : string) (p : Bot.pending) :
  Bot.m_cmd m = None → Bot.m_from m = Some ADMIN → Bot.m_photo m = Some cover →
  Bot.w_pending w !! ADMIN = Some p →
  Bot.h_out (Bot.dispatch ADMIN SRC CHS DEL Fancy.fancy e w m) = [Bot.Log "Failed to save movie"].
Proof.
  intros Hc Hf Hph Hp. unfold Bot.dispatch.
  assert (Hna : Bot.is_command "addmovie" m = false) by (unfold Bot.is_command; by rewrite Hc).
  rewrite Hna, (bool_decide_eq_true_2 (Bot.m_from m = Some ADMIN) Hf).
  rewrite (bool_decide_eq_true_2 (Bot.m_photo m ≠ None)) by (rewrite Hph; discriminate).
  cbn [andb]. unfold Bot.receive_cover. cbv zeta. rewrite Hf, Hp, Hph.
  destruct (db_add_movie _ _ _ _ _); [destruct (Bot.e_me e)|];
    rewrite ?FancyFacts.fancy_none, ?FancyFacts.reply_fancy_none; reflexivity.
Qed.

Lemma dispatch_start_pass (ADMIN : Z) (SRC : string) (CHS : list string) (DEL : Z)
    (fancy : string → option string) (e : Bot.env) (w : Bot.world) (m : Bot.message)
    (c : string) (uid : Z) (rows : list (string * string)) :
  Bot.m_cmd m = Some ["start"; Url.quote c] → Bot.m_photo m = None →
  Bot.m_from m = Some uid → Bot.e_db_up e = true →
  db_get_movies true (Bot.w_db w) c = Some rows → rows ≠ [] →
  (Bot.user_in_all_channels e CHS uid).1 = true →
  Bot.dispatch ADMIN SRC CHS DEL fancy e w m
  = Bot.mkRes w ((Bot.user_in_all_channels e CHS uid).2 ++ (Bot.send_all DEL fancy rows).1)
              (Bot.send_all DEL fancy rows).2.
Proof.
  intros Hc Hph Hf Hdb Hrows Hne Hgate. unfold Bot.dispatch.
  assert (Hna : Bot.is_command "addmovie" m = false) by (unfold Bot.is_command; by rewrite Hc).
  assert (Hst : Bot.is_command "start" m = true) by (unfold Bot.is_command; by rewrite Hc).
  rewrite Hna, Hst, (bool_decide_eq_false_2 (Bot.m_photo m ≠ None))
    by (rewrite Hph; intros H; apply H; reflexivity).
  cbn [andb].
  apply (DeliveryFacts2.cmd_start_pass_eq CHS DEL fancy e w m "start" (Url.quote c) [] uid rows);
    try assumption.
  by rewrite StripFacts.strip_quote, UrlFacts.unquote_quote, Hdb.
Qed.

End EndToEndFacts.

(** [receive_cover] once the entry is stored: the pending record is
    removed and the entry is in the table whatever follows.  If
    [bot.get_me()] then fails, the handler goes to the same failure
    branch as when the database write fails; with bot.py's [fancy] it
    always ends there (the confirmation's [fancy] call raises), logs
    "Failed to save movie" and raises again without sending any reply. *)
Theorem receive_cover_saved_but_reported_failed (fancy : string → option string) (e : Bot.env)
    (w : Bot.world) (m : Bot.message) (uid : Z) (p : Bot.pending) (cover : string)
    (db' : Store.table) :
  Bot.m_from m = Some uid → Bot.w_pending w !! uid = Some p →
  Bot.m_photo m = Some cover →
  Store.db_add_movie (Bot.e_db_up e) (Bot.w_db w) (Bot.p_code p) (Bot.p_file_id p) cover
    = Some db' →
  (Bot.e_me e = None →
   Bot.receive_cover fancy e w m
   = Bot.reply_fancy fancy (Bot.mkWorld (delete uid (Bot.w_pending w)) db')
       [Bot.Log "Failed to save movie"] "❌ Failed to save movie, check logs.") ∧
  Bot.receive_cover Fancy.fancy e w m
  = Bot.mkRes (Bot.mkWorld (delete uid (Bot.w_pending w)) db')
      [Bot.Log "Failed to save movie"] true.
Proof.
  intros Hf Hp Hph Hdb. unfold Bot.receive_cover. cbv zeta.
  rewrite Hf, Hp, Hph, Hdb. split.
  - intros Hme. by rewrite Hme.
  - destruct (Bot.e_me e); rewrite ?FancyFacts.fancy_none; apply FancyFacts.reply_fancy_none.
Qed.

Lemma receive_cover_saved_but_reported_failed_witness :
  Bot.receive_cover Fancy.fancy Samples.env_ok Samples.w_pend Samples.msg_cover
  = Bot.mkRes (Bot.mkWorld (delete 42%Z (Bot.w_pending Samples.w_pend))
                 [Store.mkRow "demo" "vid1" "cover1"])
      [Bot.Log "Failed to save movie"] true.
Proof.
  apply (receive_cover_saved_but_reported_failed Fancy.fancy _ Samples.w_pend Samples.msg_cover
           42 Samples.pend_demo "cover1"); reflexivity.
Defined.

(** A message that neither comes from [ADMIN_ID] nor is posted in
    [SOURCE_CHANNEL] never changes the pending map or the table, whatever
    command or photo it carries. *)
Theorem dispatch_unauthorized_readonly (ADMIN : Z) (SRC : string) (CHS : list string)
    (DEL : Z) (fancy : string → option string) (e : Bot.env) (w : Bot.world) (m : Bot.message) :
  Bot.m_from m ≠ Some ADMIN → Bot.m_chat m ≠ SRC →
  Bot.h_world (Bot.dispatch ADMIN SRC CHS DEL fancy e w m) = w.
Proof.
  intros Hf Hc. unfold Bot.dispatch.
  rewrite (bool_decide_eq_false_2 _ Hf), (proj2 (String.eqb_neq _ _) Hc),
          orb_false_r, !andb_false_r.
  destruct (Bot.is_command "start" m); [apply PendingFacts.cmd_start_world | reflexivity].
Qed.

Lemma dispatch_unauthorized_readonly_witness :
  Bot.h_world (Bot.dispatch Samples.ADMIN Samples.SRC Samples.CHS 1200 Fancy.fancy Samples.env_ok
                 Samples.w_demo
                 (Bot.mkMessage (Some 7%Z) "dm" (Some "/addmovie x") (Some ["addmovie"; "x"])
                    (Some (Bot.mkReplied (Some "vid9") None)) None))
  = Samples.w_demo.
Proof.
  apply dispatch_unauthorized_readonly; discriminate.
Defined.

(** Pending records of users other than [ADMIN_ID] (created by
    [/addmovie] in [SOURCE_CHANNEL]) are never consumed: no message
    removes them, since only [ADMIN_ID]'s photos reach [receive_cover]. *)
Theorem dispatch_keeps_other_pending (ADMIN : Z) (SRC : string) (CHS : list string)
    (DEL : Z) (fancy : string → option string) (e : Bot.env) (w : Bot.world) (m : Bot.message)
    (uid : Z) :
  uid ≠ ADMIN → is_Some (Bot.w_pending w !! uid) →
  is_Some (Bot.w_pending (Bot.h_world (Bot.dispatch ADMIN SRC CHS DEL fancy e w m)) !! uid).
Proof. apply PendingFacts.dispatch_keeps_other. Qed.

Lemma dispatch_keeps_other_pending_witness :
  is_Some (Bot.w_pending (Bot.h_world
    (Bot.dispatch Samples.ADMIN Samples.SRC Samples.CHS 1200 Fancy.fancy Samples.env_ok
       (Bot.mkWorld {[7%Z := Samples.pend_demo; 42%Z := Samples.pend_demo]} [])
       Samples.msg_cover)) !! 7%Z).
Proof.
  apply dispatch_keeps_other_pending; [discriminate | eexists; reflexivity].
Defined.

(** [/addmovie] whose code, once stripped, still contains a space (a
    multi-word code) is refused with the "single token" message and
    changes nothing; the code is not truncated to its first word. *)
Theorem cmd_addmovie_rejects_multiword (fancy : string → option string) (e : Bot.env)
    (w : Bot.world) (m : Bot.message) (rep : Bot.replied) (fid text tok arg : string) :
  Bot.m_reply m = Some rep → Bot.replied_file_id rep = Some fid →
  Bot.m_text m = Some text → Py.split_max1 text = [tok; arg] →
  Py.has_char " "%char (Py.strip arg) = true →
  Bot.cmd_addmovie fancy e w m = Bot.reply_fancy fancy w [] "❌ Invalid code. Use a single token." ∧
  Bot.cmd_addmovie Fancy.fancy e w m = Bot.mkRes w [] true.
Proof.
  intros Hr Hfid Ht Hsp Hsp'.
  assert (H : ∀ f, Bot.cmd_addmovie f e w m
                   = Bot.reply_fancy f w [] "❌ Invalid code. Use a single token.").
  { intros f. unfold Bot.cmd_addmovie.
    rewrite Hr, Hfid, Ht, Hsp. cbn iota beta zeta.
    by rewrite Hsp', orb_true_r. }
  split; [apply H|]. rewrite H. apply FancyFacts.reply_fancy_none.
Qed.

Lemma cmd_addmovie_rejects_multiword_witness :
  Bot.cmd_addmovie Fancy.fancy Samples.env_ok Samples.w0
    (Bot.mkMessage (Some 42%Z) "dm" (Some "/addmovie demon slayer")
       (Some ["addmovie"; "demon"; "slayer"]) (Some (Bot.mkReplied (Some "vid1") None)) None)
  = Bot.mkRes Samples.w0 [] true.
Proof.
  pose proof (cmd_addmovie_rejects_multiword Fancy.fancy Samples.env_ok Samples.w0
           (Bot.mkMessage (Some 42%Z) "dm" (Some "/addmovie demon slayer")
              (Some ["addmovie"; "demon"; "slayer"]) (Some (Bot.mkReplied (Some "vid1") None)) None)
           (Bot.mkReplied (Some "vid1") None) "vid1" "/addmovie demon slayer"
           "/addmovie" "demon slayer" eq_refl eq_refl eq_refl ltac:(reflexivity)
           ltac:(reflexivity)) as [_ H].
  exact H.
Defined.

(** A non-empty [CHANNELS] variable made only of commas and whitespace
    yields an empty channel list, and then [user_in_all_channels] lets
    every user through without querying anything. *)
Theorem channels_separators_only_open_gate (environ : string → option string)
    (int_of : string → option Z) (cfg : Startup.config) (v : string) :
  Startup.load_config environ int_of = inr cfg →
  environ "CHANNELS" = Some v → v ≠ "" →
  (∀ c, Py.has_char c v = true → c = ","%char ∨ Py.is_space c = true) →
  Startup.CHANNELS cfg = [] ∧
  ∀ e uid, Bot.user_in_all_channels e (Startup.CHANNELS cfg) uid = (true, []).
Proof.
  intros Hl Hv Hne Hsep.
  assert (Hch : Startup.CHANNELS cfg = []).
  { unfold Startup.load_config in Hl. cbv zeta in Hl.
    repeat match type of Hl with
           | context [Startup.bind ?x _] => destruct x; cbn [Startup.bind] in Hl
           end; try discriminate.
    injection Hl as <-. cbn [Startup.CHANNELS].
    rewrite Hv, (proj2 (String.eqb_neq v "") Hne).
    rewrite ChannelFacts.filter_all_blank; [reflexivity|].
    apply ChannelFacts.split_comma_aux_blank; [|exact Hsep].
    intros c Hc. discriminate. }
  split; [exact Hch|]. intros e uid. by rewrite Hch.
Qed.

Lemma channels_separators_only_open_gate_witness :
  Bot.user_in_all_channels Samples.env_stranger
    (Startup.CHANNELS (Startup.mkConfig 1 "1" "1" 1 "1" "1" [] 1 1)) 7
  = (true, []).
Proof.
  apply (proj2 (channels_separators_only_open_gate
                  (λ n, if String.eqb n "CHANNELS" then Some " , ,"
                        else if String.eqb n "LOG_LEVEL" then None else Some "1")
                  (λ _, Some 1%Z) (Startup.mkConfig 1 "1" "1" 1 "1" "1" [] 1 1) " , ,"
                  eq_refl eq_refl ltac:(discriminate) ltac:(
                    intros c H; simpl in H;
                    repeat (apply orb_true_iff in H as [H|H]); try discriminate;
                    apply Ascii.eqb_eq in H; subst c;
                    first [left; reflexivity | right; reflexivity]))).
Defined.

(** Upload then delivery through [dispatch], the database being
    reachable: [ADMIN_ID] replies to a file with [/addmovie code] and
    then sends a photo.  With bot.py's [fancy] neither handler sends a
    reply (the second only logs "Failed to save movie"), yet the record
    is consumed and the entry is stored: the code decoded from the deep
    link (start argument [quote(code)]) lists the file.  A user in every
    channel who then opens that deep link is sent no video, since the
    first caption raises; with a [fancy] that returns, the file is sent. *)
Theorem upload_then_deliver (ADMIN : Z) (SRC : string) (CHS : list string) (DEL : Z)
    (e1 e2 e3 : Bot.env) (w : Bot.world)
    (m1 m2 m3 : Bot.message) (rep : Bot.replied) (fid text tok arg cover : string)
    (uid : Z) :
  Bot.is_command "addmovie" m1 = true → Bot.m_from m1 = Some ADMIN →
  Bot.m_reply m1 = Some rep → Bot.replied_file_id rep = Some fid →
  Bot.m_text m1 = Some text → Py.split_max1 text = [tok; arg] →
  Bot.code_ok (Py.strip arg) →
  Bot.m_cmd m2 = None → Bot.m_from m2 = Some ADMIN → Bot.m_photo m2 = Some cover →
  Bot.e_db_up e2 = true →
  Bot.m_cmd m3 = Some ["start"; Url.quote (Py.strip arg)] → Bot.m_photo m3 = None →
  Bot.m_from m3 = Some uid → Bot.e_db_up e3 = true →
  (Bot.user_in_all_channels e3 CHS uid).1 = true →
  Bot.h_out (Bot.dispatch ADMIN SRC CHS DEL Fancy.fancy e1 w m1) = [] ∧
  Bot.h_out (Bot.dispatch ADMIN SRC CHS DEL Fancy.fancy e2
               (Bot.run ADMIN SRC CHS DEL Fancy.fancy w [(e1, m1)]) m2)
    = [Bot.Log "Failed to save movie"] ∧
  (∀ fancy,
     Bot.w_pending (Bot.run ADMIN SRC CHS DEL fancy w [(e1, m1); (e2, m2)])
       = delete ADMIN (Bot.w_pending w) ∧
     ∃ rows cv, Store.db_get_movies true
                  (Bot.w_db (Bot.run ADMIN SRC CHS DEL fancy w [(e1, m1); (e2, m2)]))
                  (Url.unquote (Py.strip (Url.quote (Py.strip arg)))) = Some rows ∧
                In (fid, cv) rows) ∧
  Bot.sent_videos (Bot.h_out (Bot.dispatch ADMIN SRC CHS DEL Fancy.fancy e3
     (Bot.run ADMIN SRC CHS DEL Fancy.fancy w [(e1, m1); (e2, m2)]) m3)) = [] ∧
  (∀ g : string → string,
     fid ∈ Bot.sent_videos (Bot.h_out (Bot.dispatch ADMIN SRC CHS DEL (λ s, Some (g s)) e3
        (Bot.run ADMIN SRC CHS DEL (λ s, Some (g s)) w [(e1, m1); (e2, m2)]) m3))).
Proof.
  intros Hc1 Hf1 Hr Hfid Ht Hsp Hok Hc2 Hf2 Hph Hdb2 Hc3 Hph3 Hf3 Hdb3 Hgate.
  set (P := Bot.mkPending (Py.strip arg) fid (Bot.e_now e1)).
  set (W1 := Bot.mkWorld (<[ADMIN := P]> (Bot.w_pending w)) (Bot.w_db w)).
  pose proof (PendingFacts.dispatch_addmovie_valid ADMIN SRC CHS DEL e1 w m1 ADMIN rep fid text
                tok arg Hc1 (or_introl Hf1) Hr Hfid Ht Hsp Hok Hf1) as [Hw1 Hreal1].
  fold P W1 in Hw1.
  assert (Hrun1 : ∀ f, Bot.run ADMIN SRC CHS DEL f w [(e1, m1)] = W1)
    by (intros f; cbn [Bot.run]; apply Hw1).
  assert (Hstep2 : ∀ f,
    Bot.w_pending (Bot.run ADMIN SRC CHS DEL f w [(e1, m1); (e2, m2)])
      = delete ADMIN (Bot.w_pending w) ∧
    ∃ rows cv, Store.db_get_movies true
                 (Bot.w_db (Bot.run ADMIN SRC CHS DEL f w [(e1, m1); (e2, m2)])) (Py.strip arg)
               = Some rows ∧ In (fid, cv) rows).
  { intros f. cbn [Bot.run]. rewrite Hw1.
    destruct (PendingFacts.dispatch_cover_saved ADMIN SRC CHS DEL f e2 W1 m2 cover P
                Hc2 Hf2 Hph Hdb2 ltac:(apply lookup_insert_eq)) as [Hp Hd].
    split; [rewrite Hp; apply delete_insert_eq|].
    destruct (EndToEndFacts.get_after_insert (Bot.w_db w)
                (Bot.w_db (Bot.h_world (Bot.dispatch ADMIN SRC CHS DEL f e2 W1 m2)))
                (Py.strip arg) fid cover) as (rows & Hrows & cv & Hin);
      [unfold Store.db_add_movie; by rewrite Hd|].
    eauto. }
  split; [by rewrite Hreal1|].
  split.
  { rewrite Hrun1. apply (EndToEndFacts.dispatch_cover_real ADMIN SRC CHS DEL e2 W1 m2 cover P);
      [exact Hc2 | exact Hf2 | exact Hph | apply lookup_insert_eq]. }
  split.
  { intros f. destruct (Hstep2 f) as [Hp Hrows]. split; [exact Hp|].
    by rewrite StripFacts.strip_quote, UrlFacts.unquote_quote. }
  split.
  - destruct (Hstep2 Fancy.fancy) as (_ & rows & cv & Hrows & Hin).
    rewrite (EndToEndFacts.dispatch_start_pass ADMIN SRC CHS DEL Fancy.fancy e3 _ m3
               (Py.strip arg) uid rows Hc3 Hph3 Hf3 Hdb3 Hrows); [| intros ->; destruct Hin | exact Hgate].
    destruct rows as [|r rows]; [destruct Hin|].
    rewrite DeliveryFacts2.send_all_raises. cbn [fst Bot.h_out]. rewrite app_nil_r.
    apply (proj1 (DeliveryFacts2.membership_effects e3 CHS uid)).
  - intros g. destruct (Hstep2 (λ s, Some (g s))) as (_ & rows & cv & Hrows & Hin).
    rewrite (EndToEndFacts.dispatch_start_pass ADMIN SRC CHS DEL _ e3 _ m3
               (Py.strip arg) uid rows Hc3 Hph3 Hf3 Hdb3 Hrows); [| intros ->; destruct Hin | exact Hgate].
    cbn [Bot.h_out]. rewrite DeliveryFacts2.sent_videos_app.
    rewrite (proj1 (DeliveryFacts2.membership_effects e3 CHS uid)).
    rewrite (proj1 (DeliveryFacts2.send_all_effects DEL g rows)). simpl.
    apply list_elem_of_In, in_map_iff. exists (fid, cv). auto.
Qed.

Lemma upload_then_deliver_witness :
  Bot.sent_videos (Bot.h_out (Bot.dispatch Samples.ADMIN Samples.SRC Samples.CHS 1200 Fancy.fancy
       Samples.env_ok
       (Bot.run Samples.ADMIN Samples.SRC Samples.CHS 1200 Fancy.fancy Samples.w0
          [(Samples.env_ok, Samples.msg_add); (Samples.env_ok, Samples.msg_cover)])
       (Bot.mkMessage (Some 7%Z) "dm" (Some "/start demo") (Some ["start"; "demo"]) None None)))
  = [] ∧
  "vid1" ∈ Bot.sent_videos (Bot.h_out (Bot.dispatch Samples.ADMIN Samples.SRC Samples.CHS 1200 Some
       Samples.env_ok
       (Bot.run Samples.ADMIN Samples.SRC Samples.CHS 1200 Some Samples.w0
          [(Samples.env_ok, Samples.msg_add); (Samples.env_ok, Samples.msg_cover)])
       (Bot.mkMessage (Some 7%Z) "dm" (Some "/start demo") (Some ["start"; "demo"]) None None))).
Proof.
  pose proof (upload_then_deliver Samples.ADMIN Samples.SRC Samples.CHS 1200
           Samples.env_ok Samples.env_ok Samples.env_ok Samples.w0 Samples.msg_add
           Samples.msg_cover
           (Bot.mkMessage (Some 7%Z) "dm" (Some "/start demo") (Some ["start"; "demo"]) None None)
           (Bot.mkReplied (Some "vid1") None) "vid1" "/addmovie demo"
           "/addmovie" "demo" "cover1" 7
           ltac:(reflexivity) ltac:(reflexivity) ltac:(reflexivity) ltac:(reflexivity)
           ltac:(reflexivity) ltac:(reflexivity) ltac:(split; [discriminate | reflexivity])
           ltac:(reflexivity) ltac:(reflexivity) ltac:(reflexivity) ltac:(reflexivity)
           ltac:(vm_compute; reflexivity) ltac:(reflexivity) ltac:(reflexivity)
           ltac:(reflexivity) ltac:(vm_compute; reflexivity)) as (_ & _ & _ & H1 & H2).
  split; [exact H1|].
  exact (H2 (λ s, s)).
Defined.
